(** * egaify: quantisation to the EGA palette and planar packing

    A shallow embedding of [egaify.cpp] (the converter that maps a decoded
    RGBA image onto the 16-colour IBM EGA palette and re-packs the palette
    indices into four bit planes) together with the properties that its
    specification states about it.

    Data model.  The machine model is the usual 64-bit one: [uint8_t] is 8
    bits, [unsigned] and [uint32_t] are 32 bits, [size_t] is 64 bits.  Every
    machine integer is a [Z]; where C++ computes in an unsigned type the
    reduction modulo the width of the type is written out ([u8], [u32],
    [usize]).  Buffers ([std::vector], the [malloc]ed plane buffer) are
    lists of [Z]; an access outside a buffer is undefined behaviour in the
    source and is the outcome [Undefined] here. *)

From Stdlib Require Import ZArith Lia List Bool.
From stdpp Require Import base list list_numbers.

Local Open Scope Z_scope.

(** ** Machine integers *)

Definition u8 (z : Z) : Z := z mod 2 ^ 8.
Definition u32 (z : Z) : Z := z mod 2 ^ 32.
Definition usize (z : Z) : Z := z mod 2 ^ 64.

(** ** Outcomes of effectful code

    [Ok a]: the code ran to its end with value [a].  [Exit c d]: the
    process ended early with status [c] after writing the diagnostics [d]
    to the error stream.  [Undefined]: the code made an access outside a
    buffer. *)

Inductive diagnostic : Type :=
  | DUsage
  | DLoadError (code : Z)
  | DDecodeError (code : Z)
  | DWidthNotMultipleOf8
  | DAllocationFailed
  | DOpenFailed.

Inductive result (A : Type) : Type :=
  | Ok (a : A)
  | Exit (code : Z) (diag : list diagnostic)
  | Undefined.
Arguments Ok {A} a.
Arguments Exit {A} code diag.
Arguments Undefined {A}.

(** Sequencing: the first failure ends the computation. *)
#[global] Instance result_bind : MBind result := fun A B k m =>
  match m with
  | Ok a => k a
  | Exit c d => Exit c d
  | Undefined => Undefined
  end.

(** [for (i = start; i < start + n; i++) s = body i s], for a pure body and
    for a body that can fail.  The loops of the source count from 0 up to
    a bound that their counter's type holds ([i < 16] in a [uint8_t],
    [y < height], [x < width] and [plane < 4] in an [unsigned]), so the
    counter itself never wraps. *)
Fixpoint for_loop {S : Type} (n : nat) (i : Z) (body : Z -> S -> S) (s : S) : S :=
  match n with
  | O => s
  | Datatypes.S n' => for_loop n' (i + 1) body (body i s)
  end.

Fixpoint for_loopM {S : Type} (n : nat) (i : Z)
    (body : Z -> S -> result S) (s : S) : result S :=
  match n with
  | O => Ok s
  | Datatypes.S n' => s' ← body i s; for_loopM n' (i + 1) body s'
  end.

(** [v[i]] and [v[i] = x] on a buffer; the index is an unsigned value, so
    it is never negative. *)
Definition vec_get (v : list Z) (i : Z) : result Z :=
  match v !! Z.to_nat i with
  | Some x => Ok x
  | None => Undefined
  end.

Definition vec_set (v : list Z) (i : Z) (x : Z) : result (list Z) :=
  match v !! Z.to_nat i with
  | Some _ => Ok (<[Z.to_nat i := x]> v)
  | None => Undefined
  end.

(** ** The palette *)

Definition ega_palette : list (Z * Z * Z) :=
  [ (0x00, 0x00, 0x00);   (* 0 black *)
    (0x00, 0x00, 0xAA);   (* 1 blue *)
    (0x00, 0xAA, 0x00);   (* 2 green *)
    (0x00, 0xAA, 0xAA);   (* 3 cyan *)
    (0xAA, 0x00, 0x00);   (* 4 red *)
    (0xAA, 0x00, 0xAA);   (* 5 magenta *)
    (0xAA, 0x55, 0x00);   (* 6 brown / dark yellow *)
    (0xAA, 0xAA, 0xAA);   (* 7 light grey *)
    (0x55, 0x55, 0x55);   (* 8 dark grey *)
    (0x55, 0x55, 0xFF);   (* 9 bright blue *)
    (0x55, 0xFF, 0x55);   (* 10 bright green *)
    (0x55, 0xFF, 0xFF);   (* 11 bright cyan *)
    (0xFF, 0x55, 0x55);   (* 12 bright red *)
    (0xFF, 0x55, 0xFF);   (* 13 bright magenta *)
    (0xFF, 0xFF, 0x55);   (* 14 yellow *)
    (0xFF, 0xFF, 0xFF) ]. (* 15 white *)

(** [ega_palette[i]], for the only indices the source uses, [0 <= i < 16]. *)
Definition palette_entry (i : Z) : Z * Z * Z :=
  nth (Z.to_nat i) ega_palette (0, 0, 0).

(** ** The quantiser *)

(** [dr], [dg], [db] are [int]s of absolute value at most 255, so the sum
    of squares is at most 195075 and the [int] arithmetic is exact; the
    result is converted to [uint32_t]. *)
Definition colour_distance (a b : Z * Z * Z) : Z :=
  let '(a0, a1, a2) := a in
  let '(b0, b1, b2) := b in
  let dr := a0 - b0 in
  let dg := a1 - b1 in
  let db := a2 - b2 in
  u32 (dr * dr + dg * dg + db * db).

(** One turn of the loop of [map_to_ega]; the state is [(idx, best_dist)]. *)
Definition map_to_ega_body (rgb : Z * Z * Z) (i : Z) (st : Z * Z) : Z * Z :=
  let '(idx, best_dist) := st in
  let dist := colour_distance rgb (palette_entry i) in
  if dist <? best_dist then (i, dist) else (idx, best_dist).

Definition map_to_ega (r g b : Z) : Z :=
  let idx := 0 in
  let best_dist := 0xffffffff in
  let rgb := (r, g, b) in
  fst (for_loop 16 0 (map_to_ega_body rgb) (idx, best_dist)).

(** The squared Euclidean distance of the specification, over the
    integers. *)
Definition sq_dist (a b : Z * Z * Z) : Z :=
  (a.1.1 - b.1.1) ^ 2 + (a.1.2 - b.1.2) ^ 2 + (a.2 - b.2) ^ 2.

(** ** The planar packer *)

(** The body of the plane loop of [convert_to_planar].
    [plane * plane_size + byte_offset] is a [size_t] expression because
    [plane_size] is a [size_t]; [out[..] |= (1 << bit)] stores the [int]
    result back into a [uint8_t]. *)
Definition pack_plane (pixel_index bit byte_offset plane_size : Z) (plane : Z)
    (out : list Z) : result (list Z) :=
  if negb (Z.land (Z.shiftr pixel_index plane) 0x1 =? 0) then
    let pos := usize (usize (plane * plane_size) + byte_offset) in
    old ← vec_get out pos;
    vec_set out pos (u8 (Z.lor old (Z.shiftl 1 bit)))
  else Ok out.

(** The body of the two pixel loops of [convert_to_planar], for the pixel
    in column [x] of row [y].  [y * width + x] is an [unsigned]
    expression. *)
Definition pack_pixel (indices : list Z) (width plane_size : Z) (y x : Z)
    (out : list Z) : result (list Z) :=
  v ← vec_get indices (u32 (u32 (y * width) + x));
  let pixel_index := Z.land v 0x0F in
  let bit := u32 (7 - Z.land x 7) in
  let byte_offset := u32 (u32 (y * width) + x) / 8 in
  for_loopM 4 0 (pack_plane pixel_index bit byte_offset plane_size) out.

(** [malloc_ok] tells whether [malloc] returns a buffer; when it does not,
    the function writes its diagnostic and calls [exit(1)]. *)
Definition convert_to_planar (malloc_ok : bool) (indices : list Z)
    (width height : Z) : result (list Z) :=
  let plane_size := u32 (width * height) / 8 in
  if negb malloc_ok then Exit 1 [DAllocationFailed]
  else
    let out := replicate (Z.to_nat (usize (plane_size * 4))) 0 in
    for_loopM (Z.to_nat height) 0 (fun y out =>
      for_loopM (Z.to_nat width) 0 (fun x out =>
        pack_pixel indices width plane_size y x out) out) out.

(** ** The program *)

(** What [main] is given by its surroundings: the argument count, what
    [lodepng::load_file] and [lodepng::decode] return (an error code, and
    on success the RGBA bytes with the width and the height), whether
    [malloc] and [fopen] succeed, and how many bytes the output stream
    takes before it fails.  Allocation by [std::vector] is taken to
    succeed. *)
Record environment : Type := {
  argc : Z;
  load_file_error : Z;
  decode_error : Z;
  image : list Z;
  width : Z;
  height : Z;
  malloc_ok : bool;
  fopen_ok : bool;
  fwrite_accepts : Z
}.

(** What a run that reaches [return 0] leaves behind: the bytes of the
    output file and the size that the closing message reports. *)
Record written : Type := {
  file_bytes : list Z;
  reported_size : Z
}.

(** The body of the two pixel loops of [main]. *)
Definition quantize_pixel (image : list Z) (width : Z) (y x : Z)
    (indices : list Z) : result (list Z) :=
  let idx := u32 (4 * u32 (u32 (y * width) + x)) in
  r ← vec_get image (u32 (idx + 0));
  g ← vec_get image (u32 (idx + 1));
  b ← vec_get image (u32 (idx + 2));
  vec_set indices (u32 (u32 (y * width) + x)) (map_to_ega r g b).

Definition quantize (image : list Z) (width height : Z) : result (list Z) :=
  let indices := replicate (Z.to_nat (u32 (width * height))) 0 in
  for_loopM (Z.to_nat height) 0 (fun y indices =>
    for_loopM (Z.to_nat width) 0 (fun x indices =>
      quantize_pixel image width y x indices) indices) indices.

(** [main].  The output file is opened by [fopen] only, after every other
    step: a run that ends in [Exit] has not created or changed it.
    [fwrite]'s return value is not looked at; the file receives what the
    stream took, and the run goes on to [return 0]. *)
Definition main (e : environment) : result written :=
  if argc e <? 3 then Exit 1 [DUsage]
  else if negb (load_file_error e =? 0) then
    Exit 1 [DLoadError (load_file_error e)]
  else if negb (decode_error e =? 0) then
    Exit 1 [DDecodeError (decode_error e)]
  else if negb (width e mod 8 =? 0) then Exit 1 [DWidthNotMultipleOf8]
  else
    indices ← quantize (image e) (width e) (height e);
    planar ← convert_to_planar (malloc_ok e) indices (width e) (height e);
    let plane_size := u32 (width e * height e) / 8 in
    let total_size := usize (plane_size * 4) in
    if negb (fopen_ok e) then Exit 1 [DOpenFailed]
    else
      Ok {| file_bytes :=
              take (Z.to_nat (Z.min (fwrite_accepts e) total_size)) planar;
            reported_size := total_size |}.

(** The failures that [main] and [convert_to_planar] look for, each with
    the diagnostic written for it, in the order in which the steps are
    taken. *)
Inductive detected_failure (e : environment) : diagnostic -> Prop :=
  | usage_failure :
      argc e < 3 ->
      detected_failure e DUsage
  | load_failure :
      3 <= argc e -> load_file_error e <> 0 ->
      detected_failure e (DLoadError (load_file_error e))
  | decode_failure :
      3 <= argc e -> load_file_error e = 0 -> decode_error e <> 0 ->
      detected_failure e (DDecodeError (decode_error e))
  | width_failure :
      3 <= argc e -> load_file_error e = 0 -> decode_error e = 0 ->
      width e mod 8 <> 0 ->
      detected_failure e DWidthNotMultipleOf8
  | allocation_failure indices :
      3 <= argc e -> load_file_error e = 0 -> decode_error e = 0 ->
      width e mod 8 = 0 ->
      quantize (image e) (width e) (height e) = Ok indices ->
      malloc_ok e = false ->
      detected_failure e DAllocationFailed
  | open_failure indices planar :
      3 <= argc e -> load_file_error e = 0 -> decode_error e = 0 ->
      width e mod 8 = 0 ->
      quantize (image e) (width e) (height e) = Ok indices ->
      convert_to_planar (malloc_ok e) indices (width e) (height e) = Ok planar ->
      fopen_ok e = false ->
      detected_failure e DOpenFailed.

(** The same surroundings with other decoded bytes. *)
Definition with_image (e : environment) (img : list Z) : environment :=
  {| argc := argc e;
     load_file_error := load_file_error e;
     decode_error := decode_error e;
     image := img;
     width := width e;
     height := height e;
     malloc_ok := malloc_ok e;
     fopen_ok := fopen_ok e;
     fwrite_accepts := fwrite_accepts e |}.

(** An 8-by-1 image of opaque pixels, black and white in turn, and a run
    on it in which everything succeeds except that the output stream takes
    [accepts] bytes only. *)
Definition stripes : list Z :=
  [0; 0; 0; 255; 255; 255; 255; 255; 0; 0; 0; 255; 255; 255; 255; 255;
   0; 0; 0; 255; 255; 255; 255; 255; 0; 0; 0; 255; 255; 255; 255; 255].

Definition stripes_run (accepts : Z) : environment :=
  {| argc := 3; load_file_error := 0; decode_error := 0;
     image := stripes; width := 8; height := 1;
     malloc_ok := true; fopen_ok := true; fwrite_accepts := accepts |}.

(** A decoded image of 65536 by 65536 black pixels, an index buffer of as
    many entries 15, and a run on that image in which everything
    succeeds.  65536 * 65536 = 2^32 does not fit [unsigned]. *)
Definition huge_image : list Z := replicate (Z.to_nat 17179869184) 0.

Definition huge_indices : list Z := replicate (Z.to_nat 4294967296) 15.

Definition huge_run : environment :=
  {| argc := 3; load_file_error := 0; decode_error := 0;
     image := huge_image; width := 65536; height := 65536;
     malloc_ok := true; fopen_ok := true; fwrite_accepts := 2147483648 |}.

(** ** The layout the specification describes *)

(** Bit [p] of the palette index of pixel [n]. *)
Definition index_bit (indices : list Z) (p n : Z) : bool :=
  Z.testbit (nth (Z.to_nat n) indices 0) p.

(** Byte [k] of plane [p]: the bits [p] of pixels [8k .. 8k+7], the
    leftmost pixel in the most significant bit. *)
Definition plane_byte (indices : list Z) (p k : Z) : Z :=
  fold_right Z.add 0
    (map (fun j => Z.b2z (index_bit indices p (8 * k + j)) * 2 ^ (7 - j))
         (seqZ 0 8)).

Definition plane (indices : list Z) (npixels p : Z) : list Z :=
  map (plane_byte indices p) (seqZ 0 (npixels / 8)).

(** The inverse of the packing: bit [7 - x mod 8] of byte
    [(y * width + x) / 8] of plane [p] is bit [p] of the index of the pixel
    in column [x] of row [y]. *)
Definition unpack_bit (planes : list Z) (width height : Z) (p x y : Z) : bool :=
  let plane_size := width * height / 8 in
  Z.testbit (nth (Z.to_nat (p * plane_size + (y * width + x) / 8)) planes 0)
            (7 - x mod 8).

Definition unpack (planes : list Z) (width height : Z) (x y : Z) : Z :=
  Z.b2z (unpack_bit planes width height 0 x y)
  + 2 * Z.b2z (unpack_bit planes width height 1 x y)
  + 4 * Z.b2z (unpack_bit planes width height 2 x y)
  + 8 * Z.b2z (unpack_bit planes width height 3 x y).

(** ** Loop invariants *)

(** The loop invariant of [map_to_ega] after the entries below [k]:
    [best_dist] is a lower bound of their distances, and once an entry has
    been taken [idx] is the first of them at that distance. *)
Definition nearest_so_far (d : Z -> Z) (k : Z) (st : Z * Z) : Prop :=
  (forall j, 0 <= j < k -> st.2 <= d j)
  /\ ((k = 0 /\ st = (0, 0xffffffff))
      \/ (0 <= st.1 < k /\ st.2 = d st.1 /\ forall j, 0 <= j < st.1 -> st.2 < d j)).

(** Pixel [m] of plane [p] has been packed once the pixel loops have
    passed it ([m < k]) or are at it and the plane loop has passed [p]. *)
Definition pixel_done (k q p m : Z) : bool :=
  (m <? k) || ((m =? k) && (p <? q)).

(** [out] holds four planes of [plane_size] bytes; bit [i] of byte [b] of
    plane [p] is the bit [p] of pixel [8b + 7 - i] if that pixel has been
    packed, and 0 otherwise. *)
Definition packed_upto (indices : list Z) (plane_size k q : Z) (out : list Z) : Prop :=
  Z.of_nat (length out) = 4 * plane_size
  /\ forall p b i, 0 <= p < 4 -> 0 <= b < plane_size ->
       Z.testbit (nth (Z.to_nat (p * plane_size + b)) out 0) i
       = (0 <=? i) && (i <? 8) && pixel_done k q p (8 * b + 7 - i)
         && index_bit indices p (8 * b + 7 - i).

(** What the pixel loops of [main] keep true of the index buffer of an
    image of [npixels] pixels. *)
Definition quantized (npixels : Z) (indices : list Z) : Prop :=
  Z.of_nat (length indices) = npixels /\ Forall (fun v => 0 <= v < 16) indices.

(** ** The little-endian writer *)

(** [fputc(c, f)] on a stream that takes the byte: [c] is converted to
    [unsigned char] and goes to the end of what has been written.  The
    source does not look at what [fputc] returns. *)
Definition fputc (c : Z) (f : list Z) : list Z := f ++ [u8 c].

(** [write_le16(f, v)], for a [uint16_t] [v]. *)
Definition write_le16 (f : list Z) (v : Z) : list Z :=
  let f := fputc (Z.land v 0xFF) f in
  fputc (Z.land (Z.shiftr v 8) 0xFF) f.

(** ** What the pixel loops of [main] store *)

(** The index stored for the pixel at linear position [n]: the quantised
    colour of the three bytes at [idx = 4 * n], the product taken in
    [unsigned]. *)
Definition stored_index (image : list Z) (n : Z) : Z :=
  let idx := u32 (4 * n) in
  map_to_ega (nth (Z.to_nat idx) image 0) (nth (Z.to_nat (idx + 1)) image 0)
             (nth (Z.to_nat (idx + 2)) image 0).

(** The index buffer holds the stored index of every pixel before [k]. *)
Definition quantized_upto (image : list Z) (npixels k : Z) (indices : list Z) : Prop :=
  Z.of_nat (length indices) = npixels
  /\ forall n, 0 <= n < k -> nth (Z.to_nat n) indices 0 = stored_index image n.

(** ** Small runs *)

Example map_to_ega_black : map_to_ega 0 0 0 = 0.
Proof. reflexivity. Qed.
Example map_to_ega_white : map_to_ega 255 255 255 = 15.
Proof. reflexivity. Qed.
Example map_to_ega_tie : map_to_ega 0 0 85 = 0.
Proof. reflexivity. Qed.
Example pack_8x1 :
  convert_to_planar true [0; 15; 0; 15; 0; 15; 0; 15] 8 1 = Ok [85; 85; 85; 85].
Proof. vm_compute. reflexivity. Qed.
Example pack_16x2 :
  convert_to_planar true (seqZ 0 16 ++ seqZ 0 16) 16 2 =
  Ok (plane (seqZ 0 16 ++ seqZ 0 16) 32 0 ++ plane (seqZ 0 16 ++ seqZ 0 16) 32 1
      ++ plane (seqZ 0 16 ++ seqZ 0 16) 32 2 ++ plane (seqZ 0 16 ++ seqZ 0 16) 32 3).
Proof. vm_compute. reflexivity. Qed.

(** ** Machine arithmetic and loops *)

(** Linear arithmetic with division and remainder by constants. *)
Ltac dlia := Z.div_mod_to_equations; lia.

(** Case analysis on every integer comparison of the goal. *)
Ltac split_comparisons :=
  repeat match goal with
    | |- context [?a <? ?b] => destruct (Z.ltb_spec a b)
    | |- context [?a <=? ?b] => destruct (Z.leb_spec a b)
    | |- context [?a =? ?b] => destruct (Z.eqb_spec a b)
    end.

Lemma u32_small z : 0 <= z < 2 ^ 32 -> u32 z = z.
Proof. intros H. unfold u32. apply Z.mod_small. exact H. Qed.

Lemma usize_small z : 0 <= z < 2 ^ 64 -> usize z = z.
Proof. intros H. unfold usize. apply Z.mod_small. exact H. Qed.

(** A property that holds before a loop and is kept by every turn holds
    after it. *)
Lemma for_loop_inv {S : Type} (P : Z -> S -> Prop) (body : Z -> S -> S) n :
  forall i s,
    P i s ->
    (forall j t, i <= j < i + Z.of_nat n -> P j t -> P (j + 1) (body j t)) ->
    P (i + Z.of_nat n) (for_loop n i body s).
Proof.
  induction n as [|n IH]; intros i s Hs Hstep.
  - simpl. replace (i + Z.of_nat 0) with i by lia. exact Hs.
  - cbn [for_loop].
    replace (i + Z.of_nat (Datatypes.S n)) with ((i + 1) + Z.of_nat n) by lia.
    apply IH.
    + apply Hstep; [lia | exact Hs].
    + intros j t Hj Ht. apply Hstep; [lia | exact Ht].
Qed.

(** The same for a loop whose body can fail: if every turn succeeds and
    keeps the property, the loop succeeds and the property holds of its
    final state. *)
Lemma for_loopM_inv {S : Type} (P : Z -> S -> Prop)
    (body : Z -> S -> result S) n :
  forall i s,
    P i s ->
    (forall j t, i <= j < i + Z.of_nat n -> P j t ->
       exists t', body j t = Ok t' /\ P (j + 1) t') ->
    exists s', for_loopM n i body s = Ok s' /\ P (i + Z.of_nat n) s'.
Proof.
  induction n as [|n IH]; intros i s Hs Hstep.
  - exists s. simpl. replace (i + Z.of_nat 0) with i by lia. auto.
  - cbn [for_loopM].
    destruct (Hstep i s) as (t' & Hb & Ht'); [lia | exact Hs |].
    rewrite Hb. cbn.
    replace (i + Z.of_nat (Datatypes.S n)) with ((i + 1) + Z.of_nat n) by lia.
    apply IH; [exact Ht' |].
    intros j t Hj Ht. apply Hstep; [lia | exact Ht].
Qed.

(** Two loops whose bodies agree turn by turn agree. *)
Lemma for_loopM_ext {S : Type} (body1 body2 : Z -> S -> result S) n :
  forall i s,
    (forall j t, i <= j < i + Z.of_nat n -> body1 j t = body2 j t) ->
    for_loopM n i body1 s = for_loopM n i body2 s.
Proof.
  induction n as [|n IH]; intros i s Hext; [reflexivity |].
  cbn [for_loopM]. rewrite Hext by lia.
  destruct (body2 i s); cbn; try reflexivity.
  apply IH. intros j t Hj. apply Hext. lia.
Qed.

(** A loop whose first turn is undefined is undefined. *)
Lemma for_loopM_undefined {S : Type} (body : Z -> S -> result S) n i s :
  (0 < n)%nat -> body i s = Undefined -> for_loopM n i body s = Undefined.
Proof.
  intros Hn Hb. destruct n as [|n]; [lia |].
  cbn [for_loopM]. rewrite Hb. reflexivity.
Qed.

(** ** The quantiser returns the first nearest palette entry *)

Lemma ega_palette_bytes :
  Forall (fun c : Z * Z * Z =>
            0 <= c.1.1 < 256 /\ 0 <= c.1.2 < 256 /\ 0 <= c.2 < 256) ega_palette.
Proof. unfold ega_palette. repeat constructor; cbn; lia. Qed.

Lemma palette_entry_bytes i :
  0 <= (palette_entry i).1.1 < 256 /\ 0 <= (palette_entry i).1.2 < 256
  /\ 0 <= (palette_entry i).2 < 256.
Proof.
  unfold palette_entry.
  destruct (nth_in_or_default (Z.to_nat i) ega_palette (0, 0, 0)) as [Hin | ->].
  - pose proof ega_palette_bytes as HF.
    rewrite List.Forall_forall in HF. apply (HF _ Hin).
  - cbn. lia.
Qed.

(** On bytes the [uint32_t] that [colour_distance] returns is the squared
    distance itself, and it is below the initial [best_dist]. *)
Lemma colour_distance_sq_dist r g b i :
  0 <= r < 256 -> 0 <= g < 256 -> 0 <= b < 256 ->
  colour_distance (r, g, b) (palette_entry i) = sq_dist (r, g, b) (palette_entry i)
  /\ 0 <= sq_dist (r, g, b) (palette_entry i) < 0xffffffff.
Proof.
  intros Hr Hg Hb.
  pose proof (palette_entry_bytes i) as (H0 & H1 & H2).
  destruct (palette_entry i) as [[p0 p1] p2]. cbn in H0, H1, H2.
  unfold colour_distance, sq_dist. cbn [fst snd].
  assert (Hbound : 0 <= (r - p0) ^ 2 + (g - p1) ^ 2 + (b - p2) ^ 2 < 0xffffffff) by nia.
  split; [| exact Hbound].
  replace ((r - p0) * (r - p0) + (g - p1) * (g - p1) + (b - p2) * (b - p2))
    with ((r - p0) ^ 2 + (g - p1) ^ 2 + (b - p2) ^ 2) by ring.
  apply u32_small. lia.
Qed.

Lemma map_to_ega_body_inv rgb k st :
  0 <= k ->
  colour_distance rgb (palette_entry k) < 0xffffffff ->
  nearest_so_far (fun j => colour_distance rgb (palette_entry j)) k st ->
  nearest_so_far (fun j => colour_distance rgb (palette_entry j)) (k + 1)
    (map_to_ega_body rgb k st).
Proof.
  intros Hk Hmax [Hlow Hidx]. destruct st as [idx best]. cbn [fst snd] in *.
  unfold map_to_ega_body.
  destruct (Z.ltb_spec (colour_distance rgb (palette_entry k)) best) as [Hlt | Hge].
  - split; cbn [fst snd].
    + intros j Hj. destruct (decide (j = k)) as [-> | Hne]; [lia |].
      specialize (Hlow j). lia.
    + right. split; [lia |]. split; [reflexivity |].
      intros j Hj. specialize (Hlow j). lia.
  - split; cbn [fst snd].
    + intros j Hj. destruct (decide (j = k)) as [-> | Hne]; [lia |].
      apply Hlow. lia.
    + destruct Hidx as [[-> Hst] | (Hi & Hbest & Hfirst)].
      * inversion Hst; subst. lia.
      * right. split; [lia |]. split; [exact Hbest | exact Hfirst].
Qed.

Lemma map_to_ega_loop_inv r g b :
  0 <= r < 256 -> 0 <= g < 256 -> 0 <= b < 256 ->
  nearest_so_far (fun j => colour_distance (r, g, b) (palette_entry j)) 16
    (for_loop 16 0 (map_to_ega_body (r, g, b)) (0, 0xffffffff)).
Proof.
  intros Hr Hg Hb.
  apply (for_loop_inv
           (nearest_so_far (fun j => colour_distance (r, g, b) (palette_entry j)))
           (map_to_ega_body (r, g, b)) 16 0).
  - split; [intros j Hj; lia | left; auto].
  - intros j t Hj Ht. apply map_to_ega_body_inv; [lia | | exact Ht].
    destruct (colour_distance_sq_dist r g b j Hr Hg Hb) as [-> Hlt]. lia.
Qed.

(** Whatever the arguments, the value returned is a palette index. *)
Lemma map_to_ega_range r g b : 0 <= map_to_ega r g b < 16.
Proof.
  unfold map_to_ega.
  apply (for_loop_inv (fun k st => 0 <= k <= 16 /\ 0 <= st.1 < 16)
           (map_to_ega_body (r, g, b)) 16 0).
  - cbn. lia.
  - intros j [idx best] Hj [_ Hidx]. cbn [fst] in Hidx.
    unfold map_to_ega_body.
    destruct (_ <? _); cbn [fst]; lia.
Qed.

(** C1.  For every RGB pixel of bytes, [map_to_ega] returns a palette
    index in [0,15] whose squared Euclidean distance to the pixel is at
    most that of every palette entry, and it is the least such index:
    among equidistant nearest entries the lowest index wins. *)
Theorem map_to_ega_least_nearest r g b :
  0 <= r < 256 -> 0 <= g < 256 -> 0 <= b < 256 ->
  let d := fun j => sq_dist (r, g, b) (palette_entry j) in
  let i := map_to_ega r g b in
  0 <= i < 16
  /\ (forall j, 0 <= j < 16 -> d i <= d j)
  /\ (forall k, 0 <= k < 16 -> (forall j, 0 <= j < 16 -> d k <= d j) -> i <= k).
Proof.
  intros Hr Hg Hb d i.
  pose proof (map_to_ega_range r g b) as Hi. fold i in Hi.
  pose proof (map_to_ega_loop_inv r g b Hr Hg Hb) as [Hlow Hidx].
  assert (Hd : forall j, colour_distance (r, g, b) (palette_entry j) = d j).
  { intros j. apply (colour_distance_sq_dist r g b j Hr Hg Hb). }
  unfold map_to_ega in i. cbv zeta in i. fold i in Hidx.
  destruct Hidx as [[Hk _] | (_ & Hbest & Hfirst)]; [lia |].
  cbn beta in Hlow, Hbest, Hfirst.
  split; [exact Hi |]. split.
  - intros j Hj. rewrite <- !Hd, <- Hbest. apply Hlow. exact Hj.
  - intros k Hk Hmin.
    destruct (Z.le_gt_cases i k) as [Hle | Hgt]; [exact Hle |].
    specialize (Hfirst k ltac:(lia)). specialize (Hmin i Hi).
    rewrite Hbest, !Hd in Hfirst. lia.
Qed.

(** The pixel (0,0,85) is as far from black (entry 0) as from blue
    (entry 1); the quantiser returns 0. *)
Lemma map_to_ega_least_nearest_witness :
  let d := fun j => sq_dist (0, 0, 85) (palette_entry j) in
  let i := map_to_ega 0 0 85 in
  0 <= i < 16
  /\ (forall j, 0 <= j < 16 -> d i <= d j)
  /\ (forall k, 0 <= k < 16 -> (forall j, 0 <= j < 16 -> d k <= d j) -> i <= k).
Proof. apply (map_to_ega_least_nearest 0 0 85); lia. Defined.

(** C5.  Every palette entry quantises to its own index. *)
Theorem map_to_ega_palette_exact (i : nat) r g b :
  ega_palette !! i = Some (r, g, b) -> map_to_ega r g b = Z.of_nat i.
Proof.
  intros H.
  do 16 (destruct i as [|i]; [inversion H; subst; reflexivity |]).
  inversion H.
Qed.

Lemma map_to_ega_palette_exact_witness : map_to_ega 0xAA 0x55 0x00 = 6.
Proof. apply (map_to_ega_palette_exact 6 0xAA 0x55 0x00). reflexivity. Defined.

(** ** Bits *)

Lemma land_shiftr_1 a p : 0 <= p -> Z.land (Z.shiftr a p) 1 = Z.b2z (Z.testbit a p).
Proof.
  intros Hp. rewrite Z.testbit_spec' by lia. rewrite Z.shiftr_div_pow2 by lia.
  change 1 with (Z.ones 1) at 1. rewrite Z.land_ones by lia. reflexivity.
Qed.

Lemma testbit_land_15 v p : 0 <= p < 4 -> Z.testbit (Z.land v 0x0F) p = Z.testbit v p.
Proof.
  intros Hp. rewrite Z.land_spec.
  assert (Hc : p = 0 \/ p = 1 \/ p = 2 \/ p = 3) by lia.
  destruct Hc as [-> | [-> | [-> | ->]]]; cbn; apply andb_true_r.
Qed.

Lemma testbit_1 j : Z.testbit 1 j = (j =? 0).
Proof.
  destruct (Z.eqb_spec j 0) as [-> | Hne]; [reflexivity |].
  destruct (Z.lt_ge_cases j 0) as [Hneg | Hpos].
  - apply Z.testbit_neg_r. exact Hneg.
  - apply Z.bits_above_log2; cbn; lia.
Qed.

(** The bits of a plane byte after [|= (1 << bit)]. *)
Lemma testbit_or_bit old bit i :
  0 <= bit ->
  Z.testbit (u8 (Z.lor old (Z.shiftl 1 bit))) i
  = (i <? 8) && (Z.testbit old i || (i =? bit)).
Proof.
  intros Hbit. unfold u8.
  destruct (Z.lt_ge_cases i 0) as [Hneg | Hpos].
  - rewrite !Z.testbit_neg_r by lia.
    destruct (Z.eqb_spec i bit); [lia |]. cbn. symmetry. apply andb_false_r.
  - destruct (Z.ltb_spec i 8) as [Hlo | Hhi].
    + rewrite Z.mod_pow2_bits_low by lia.
      rewrite Z.lor_spec, Z.shiftl_spec, testbit_1 by lia.
      cbn. f_equal. destruct (Z.eqb_spec (i - bit) 0), (Z.eqb_spec i bit); lia || reflexivity.
    + rewrite Z.mod_pow2_bits_high by lia. reflexivity.
Qed.

(** A value in [0,15] is the sum of its four low bits. *)
Lemma nibble_bits v :
  0 <= v < 16 ->
  Z.b2z (Z.testbit v 0) + 2 * Z.b2z (Z.testbit v 1)
  + 4 * Z.b2z (Z.testbit v 2) + 8 * Z.b2z (Z.testbit v 3) = v.
Proof.
  intros Hv.
  assert (Hc : v = 0 \/ v = 1 \/ v = 2 \/ v = 3 \/ v = 4 \/ v = 5 \/ v = 6 \/ v = 7
               \/ v = 8 \/ v = 9 \/ v = 10 \/ v = 11 \/ v = 12 \/ v = 13 \/ v = 14
               \/ v = 15) by lia.
  repeat (destruct Hc as [-> | Hc]; [reflexivity |]). subst v. reflexivity.
Qed.

(** The bits of a byte assembled from eight bits, the first one in the
    most significant position. *)
Lemma testbit_byte_of_bits (b0 b1 b2 b3 b4 b5 b6 b7 : bool) i :
  Z.testbit (Z.b2z b0 * 2 ^ 7 + (Z.b2z b1 * 2 ^ 6 + (Z.b2z b2 * 2 ^ 5
    + (Z.b2z b3 * 2 ^ 4 + (Z.b2z b4 * 2 ^ 3 + (Z.b2z b5 * 2 ^ 2
    + (Z.b2z b6 * 2 ^ 1 + (Z.b2z b7 * 2 ^ 0 + 0)))))))) i
  = if i =? 7 then b0 else if i =? 6 then b1 else if i =? 5 then b2
    else if i =? 4 then b3 else if i =? 3 then b4 else if i =? 2 then b5
    else if i =? 1 then b6 else if i =? 0 then b7 else false.
Proof.
  repeat match goal with
    | |- context [i =? ?c] =>
        destruct (Z.eqb_spec i c) as [-> | ?];
        [destruct b0, b1, b2, b3, b4, b5, b6, b7; reflexivity |]
    end.
  destruct (Z.lt_ge_cases i 0) as [Hneg | Hpos];
    [apply Z.testbit_neg_r; exact Hneg |].
  match goal with |- Z.testbit ?v i = false => set (byte := v) end.
  assert (Hbyte : 0 <= byte < 2 ^ 8)
    by (subst byte; destruct b0, b1, b2, b3, b4, b5, b6, b7; cbn; lia).
  rewrite <- (Z.mod_small byte (2 ^ 8)) by exact Hbyte.
  apply Z.mod_pow2_bits_high. lia.
Qed.

Lemma testbit_plane_byte indices p b i :
  Z.testbit (plane_byte indices p b) i
  = (0 <=? i) && (i <? 8) && index_bit indices p (8 * b + 7 - i).
Proof.
  unfold plane_byte.
  replace (seqZ 0 8) with [0; 1; 2; 3; 4; 5; 6; 7] by reflexivity.
  cbn [map fold_right]. change (7 - 0) with 7. change (7 - 1) with 6.
  change (7 - 2) with 5. change (7 - 3) with 4. change (7 - 4) with 3.
  change (7 - 5) with 2. change (7 - 6) with 1. change (7 - 7) with 0.
  rewrite testbit_byte_of_bits.
  repeat match goal with
    | |- context [i =? ?c] =>
        destruct (Z.eqb_spec i c) as [-> | ?]; [cbn; f_equal; lia |]
    end.
  split_comparisons; cbn; try reflexivity; lia.
Qed.

(** Byte [b] of the [p]-th of four lists of [len] elements laid end to
    end. *)
Lemma nth_four_planes (l0 l1 l2 l3 : list Z) (len : nat) (b : nat) :
  length l0 = len -> length l1 = len -> length l2 = len -> length l3 = len ->
  (b < len)%nat ->
  nth b (l0 ++ l1 ++ l2 ++ l3) 0 = nth b l0 0
  /\ nth (len + b) (l0 ++ l1 ++ l2 ++ l3) 0 = nth b l1 0
  /\ nth (2 * len + b) (l0 ++ l1 ++ l2 ++ l3) 0 = nth b l2 0
  /\ nth (3 * len + b) (l0 ++ l1 ++ l2 ++ l3) 0 = nth b l3 0.
Proof.
  intros H0 H1 H2 H3 Hb. repeat split.
  - rewrite app_nth1 by lia. reflexivity.
  - rewrite app_nth2, app_nth1 by lia. f_equal. lia.
  - rewrite app_nth2, app_nth2, app_nth1 by lia. f_equal. lia.
  - rewrite app_nth2, app_nth2, app_nth2 by lia. f_equal. lia.
Qed.

Lemma length_plane indices npixels p :
  length (plane indices npixels p) = Z.to_nat (npixels / 8).
Proof. unfold plane. rewrite length_map, length_seqZ. reflexivity. Qed.

Lemma nth_plane indices npixels p b :
  0 <= b < npixels / 8 ->
  nth (Z.to_nat b) (plane indices npixels p) 0 = plane_byte indices p b.
Proof.
  intros Hb. unfold plane.
  change (map (plane_byte indices p) (seqZ 0 (npixels / 8)))
    with (plane_byte indices p <$> seqZ 0 (npixels / 8)).
  rewrite nth_lookup, list_lookup_fmap, lookup_seqZ_lt by lia.
  cbn. f_equal. lia.
Qed.

Lemma land_7 x : Z.land x 7 = x mod 8.
Proof. change 7 with (Z.ones 3). rewrite Z.land_ones by lia. reflexivity. Qed.

(** ** The packer's loop invariant holds *)

Lemma nth_insert_Z (l : list Z) (i j : nat) x :
  (i < length l)%nat ->
  nth j (<[i := x]> l) 0 = if decide (i = j) then x else nth j l 0.
Proof.
  intros Hi. rewrite !nth_lookup. case_decide as Heq.
  - subst j. rewrite list_lookup_insert_eq by exact Hi. reflexivity.
  - rewrite list_lookup_insert_ne by exact Heq. reflexivity.
Qed.

Lemma vec_get_nth (l : list Z) i :
  0 <= i < Z.of_nat (length l) -> vec_get l i = Ok (nth (Z.to_nat i) l 0).
Proof.
  intros Hi. unfold vec_get.
  destruct (l !! Z.to_nat i) as [x|] eqn:Hl.
  - rewrite (nth_lookup_Some _ _ _ _ Hl). reflexivity.
  - apply lookup_ge_None in Hl. lia.
Qed.

Lemma vec_set_insert (l : list Z) i x :
  0 <= i < Z.of_nat (length l) -> vec_set l i x = Ok (<[Z.to_nat i := x]> l).
Proof.
  intros Hi. unfold vec_set.
  destruct (l !! Z.to_nat i) as [y|] eqn:Hl; [reflexivity |].
  apply lookup_ge_None in Hl. lia.
Qed.

(** Where the pixel in column [x] of row [y] lies, when [width * height]
    fits [unsigned] and [width] is a multiple of 8. *)
Lemma pixel_position width height x y :
  0 <= width < 2 ^ 32 -> 0 <= height < 2 ^ 32 ->
  width mod 8 = 0 -> width * height < 2 ^ 32 ->
  0 <= x < width -> 0 <= y < height ->
  0 <= y * width + x < width * height
  /\ u32 (u32 (y * width) + x) = y * width + x
  /\ (y * width + x) mod 8 = x mod 8.
Proof.
  intros Hwidth Hheight Hmul8 Hfit Hx Hy.
  assert (H1 : 0 <= y * width + x < width * height) by nia.
  split; [exact H1 |]. split.
  - rewrite (u32_small (y * width)) by nia. apply u32_small. lia.
  - assert (Hw8 : width = 8 * (width / 8)) by dlia.
    rewrite Hw8 at 1.
    replace (y * (8 * (width / 8)) + x) with (x + (y * (width / 8)) * 8) by ring.
    apply Z.mod_add. lia.
Qed.

Lemma npixels_planes width height :
  width mod 8 = 0 -> width * height = 8 * (width * height / 8).
Proof.
  intros Hmul8.
  assert (Hw8 : width = 8 * (width / 8)) by dlia.
  assert (Hn : width * height = (width / 8 * height) * 8) by (rewrite Hw8 at 1; ring).
  rewrite Hn at 2. rewrite Z.div_mul by lia. lia.
Qed.

Section Packer.

Variables (indices : list Z) (width height : Z).
Hypothesis Hwidth : 0 <= width < 2 ^ 32.
Hypothesis Hheight : 0 <= height < 2 ^ 32.
Hypothesis Hmul8 : width mod 8 = 0.
Hypothesis Hlen : Z.of_nat (length indices) = width * height.
Hypothesis Hfit : width * height < 2 ^ 32.

Local Abbreviation npixels := (width * height).
Local Abbreviation plane_size := (width * height / 8).

Lemma pack_plane_step k q out :
  0 <= k < npixels -> 0 <= q < 4 ->
  packed_upto indices plane_size k q out ->
  exists out',
    pack_plane (Z.land (nth (Z.to_nat k) indices 0) 0x0F) (7 - k mod 8) (k / 8)
      plane_size q out = Ok out'
    /\ packed_upto indices plane_size k (q + 1) out'.
Proof.
  intros Hk Hq [Hout Hbits].
  pose proof (npixels_planes width height Hmul8) as Hn.
  unfold pack_plane. rewrite land_shiftr_1, testbit_land_15 by lia.
  assert (Hpos : usize (usize (q * plane_size) + k / 8) = q * plane_size + k / 8
                 /\ 0 <= q * plane_size + k / 8 < 4 * plane_size).
  { assert (Hc : q = 0 \/ q = 1 \/ q = 2 \/ q = 3) by lia.
    destruct Hc as [-> | [-> | [-> | ->]]];
      (split; [rewrite (usize_small (_ * plane_size)) by dlia;
               rewrite usize_small by dlia; reflexivity | dlia]). }
  destruct Hpos as [Hpos Hin].
  fold (index_bit indices q k).
  destruct (index_bit indices q k) eqn:Hv; cbn [Z.b2z Z.eqb negb].
  - rewrite Hpos, vec_get_nth by lia. cbn.
    rewrite vec_set_insert by lia.
    eexists. split; [reflexivity |]. split.
    + rewrite length_insert. exact Hout.
    + intros p b i Hp Hb. rewrite nth_insert_Z by lia.
      case_decide as Heq.
      * assert (Hpb : p = q /\ b = k / 8).
        { assert (Hcp : p = 0 \/ p = 1 \/ p = 2 \/ p = 3) by lia.
          assert (Hcq : q = 0 \/ q = 1 \/ q = 2 \/ q = 3) by lia.
          destruct Hcp as [-> | [-> | [-> | ->]]];
            destruct Hcq as [-> | [-> | [-> | ->]]]; dlia. }
        destruct Hpb as [-> ->].
        rewrite testbit_or_bit by dlia. rewrite Hbits by lia.
        unfold pixel_done. split_comparisons; cbn;
          rewrite ?orb_false_r, ?orb_true_r, ?andb_false_r, ?andb_true_r;
          try reflexivity; try dlia.
        all: replace (8 * (k / 8) + 7 - i) with k by dlia; rewrite Hv; reflexivity.
      * rewrite Hbits by lia. f_equal.
        unfold pixel_done. split_comparisons; cbn; try reflexivity; try lia.
        exfalso. apply Heq. f_equal.
        assert (p = q) by lia. subst p. dlia.
  - eexists. split; [reflexivity |]. split; [exact Hout |].
    intros p b i Hp Hb. rewrite Hbits by lia.
    unfold pixel_done. split_comparisons; cbn; try reflexivity; try lia.
    assert (p = q) by lia. subst p.
    replace (8 * b + 7 - i) with k by lia. rewrite Hv. reflexivity.
Qed.

Lemma packed_upto_next k out :
  packed_upto indices plane_size k 4 out ->
  packed_upto indices plane_size (k + 1) 0 out.
Proof.
  intros [Hout Hbits]. split; [exact Hout |].
  intros p b i Hp Hb. rewrite Hbits by lia. f_equal. f_equal.
  unfold pixel_done. split_comparisons; cbn; try reflexivity; lia.
Qed.

Lemma pack_pixel_step x y out :
  0 <= x < width -> 0 <= y < height ->
  packed_upto indices plane_size (y * width + x) 0 out ->
  exists out',
    pack_pixel indices width (u32 npixels / 8) y x out = Ok out'
    /\ packed_upto indices plane_size (y * width + x + 1) 0 out'.
Proof.
  intros Hx Hy Hinv.
  destruct (pixel_position width height x y Hwidth Hheight Hmul8 Hfit Hx Hy) as (Hk & Hu & Hm).
  unfold pack_pixel. rewrite Hu, vec_get_nth by lia. cbn [mbind result_bind].
  rewrite land_7, <- Hm, (u32_small npixels), u32_small by dlia.
  destruct (for_loopM_inv
              (fun q o => packed_upto indices plane_size (y * width + x) q o)
              (pack_plane (Z.land (nth (Z.to_nat (y * width + x)) indices 0) 0x0F)
                 (7 - (y * width + x) mod 8) ((y * width + x) / 8) plane_size)
              4 0 out Hinv) as (out' & Hrun & Hdone).
  { intros q o Hq Ho. apply pack_plane_step; [lia | lia | exact Ho]. }
  exists out'. split; [exact Hrun |]. apply packed_upto_next. exact Hdone.
Qed.

Lemma pack_row_step y out :
  0 <= y < height ->
  packed_upto indices plane_size (y * width) 0 out ->
  exists out',
    for_loopM (Z.to_nat width) 0
      (fun x o => pack_pixel indices width (u32 npixels / 8) y x o) out = Ok out'
    /\ packed_upto indices plane_size ((y + 1) * width) 0 out'.
Proof.
  intros Hy Hinv.
  destruct (for_loopM_inv
              (fun x o => packed_upto indices plane_size (y * width + x) 0 o)
              (fun x o => pack_pixel indices width (u32 npixels / 8) y x o)
              (Z.to_nat width) 0 out) as (out' & Hrun & Hdone).
  { replace (y * width + 0) with (y * width) by lia. exact Hinv. }
  { intros x o Hx Ho.
    replace (y * width + (x + 1)) with (y * width + x + 1) by lia.
    apply pack_pixel_step; [lia | lia | exact Ho]. }
  exists out'. split; [exact Hrun |].
  replace ((y + 1) * width) with (y * width + (0 + Z.of_nat (Z.to_nat width))) by lia.
  exact Hdone.
Qed.

Lemma packed_upto_init :
  packed_upto indices plane_size 0 0
    (replicate (Z.to_nat (usize (u32 npixels / 8 * 4))) 0).
Proof.
  pose proof (npixels_planes width height Hmul8) as Hn.
  rewrite (u32_small npixels), usize_small by dlia.
  split; [rewrite length_replicate; dlia |].
  intros p b i Hp Hb. rewrite nth_lookup, lookup_replicate_2.
  - cbn [default]. rewrite Z.bits_0. unfold pixel_done.
    split_comparisons; cbn; try reflexivity; lia.
  - assert (Hc : p = 0 \/ p = 1 \/ p = 2 \/ p = 3) by lia.
    destruct Hc as [-> | [-> | [-> | ->]]]; lia.
Qed.

(** Without overflow of [width * height] the packer succeeds and leaves
    every pixel packed. *)
Lemma convert_to_planar_packed :
  exists out,
    convert_to_planar true indices width height = Ok out
    /\ packed_upto indices plane_size npixels 0 out.
Proof.
  unfold convert_to_planar. cbn [negb].
  destruct (for_loopM_inv
              (fun y o => packed_upto indices plane_size (y * width) 0 o)
              (fun y o =>
                 for_loopM (Z.to_nat width) 0
                   (fun x o => pack_pixel indices width (u32 npixels / 8) y x o) o)
              (Z.to_nat height) 0
              (replicate (Z.to_nat (usize (u32 npixels / 8 * 4))) 0))
    as (out & Hrun & Hdone).
  { exact packed_upto_init. }
  { intros y o Hy Ho. apply pack_row_step; [lia | exact Ho]. }
  exists out. split; [exact Hrun |].
  replace ((0 + Z.of_nat (Z.to_nat height)) * width) with npixels in Hdone by lia.
  exact Hdone.
Qed.

Lemma unpack_bit_packed out p x y :
  packed_upto indices plane_size npixels 0 out ->
  0 <= p < 4 -> 0 <= x < width -> 0 <= y < height ->
  unpack_bit out width height p x y = index_bit indices p (y * width + x).
Proof.
  intros [_ Hbits] Hp Hx Hy.
  destruct (pixel_position width height x y Hwidth Hheight Hmul8 Hfit Hx Hy) as (Hk & _ & Hm).
  pose proof (npixels_planes width height Hmul8) as Hn.
  unfold unpack_bit. rewrite Hbits by dlia.
  replace (8 * ((y * width + x) / 8) + 7 - (7 - x mod 8)) with (y * width + x) by dlia.
  unfold pixel_done. split_comparisons; cbn; try reflexivity; dlia.
Qed.

(** Unpacking the planes gives back every index in [0,15]. *)
Lemma convert_to_planar_unpacks :
  Forall (fun v => 0 <= v < 16) indices ->
  exists out,
    convert_to_planar true indices width height = Ok out
    /\ forall x y, 0 <= x < width -> 0 <= y < height ->
         unpack out width height x y = nth (Z.to_nat (y * width + x)) indices 0.
Proof.
  intros Hrange.
  destruct convert_to_planar_packed as (out & Hrun & Hpacked).
  exists out. split; [exact Hrun |].
  intros x y Hx Hy. unfold unpack.
  rewrite !(unpack_bit_packed out _ x y Hpacked) by lia.
  unfold index_bit. apply nibble_bits.
  destruct (pixel_position width height x y Hwidth Hheight Hmul8 Hfit Hx Hy) as (Hk & _ & _).
  rewrite List.Forall_nth in Hrange. apply Hrange. lia.
Qed.

Lemma packed_byte out p b :
  packed_upto indices plane_size npixels 0 out ->
  0 <= p < 4 -> 0 <= b < plane_size ->
  nth (Z.to_nat (p * plane_size + b)) out 0 = plane_byte indices p b.
Proof.
  intros [_ Hbits] Hp Hb. pose proof (npixels_planes width height Hmul8) as Hn.
  apply Z.bits_inj'. intros i Hi.
  rewrite Hbits, testbit_plane_byte by lia. f_equal.
  unfold pixel_done. split_comparisons; cbn; try reflexivity; lia.
Qed.

(** Without overflow of [width * height] the buffer returned is plane 0,
    then plane 1, plane 2 and plane 3, each of [width * height / 8]
    bytes. *)
Lemma convert_to_planar_layout :
  exists out,
    convert_to_planar true indices width height = Ok out
    /\ out = plane indices npixels 0 ++ plane indices npixels 1
             ++ plane indices npixels 2 ++ plane indices npixels 3
    /\ Z.of_nat (length out) = 4 * plane_size.
Proof.
  destruct convert_to_planar_packed as (out & Hrun & Hpacked).
  exists out. split; [exact Hrun |]. split; [| apply Hpacked].
  pose proof (npixels_planes width height Hmul8) as Hn.
  assert (Hps : 0 <= plane_size) by dlia.
  apply (nth_ext _ _ 0 0).
  - rewrite !length_app, !length_plane. destruct Hpacked as [Hout _]. lia.
  - intros n Hlt. destruct Hpacked as [Hout Hbits].
    pose proof (conj Hout Hbits : packed_upto indices plane_size npixels 0 out)
      as Hpacked.
    assert (Hc : exists p b, 0 <= p < 4 /\ 0 <= b < plane_size
                             /\ Z.of_nat n = p * plane_size + b).
    { destruct (Z.lt_ge_cases (Z.of_nat n) plane_size);
        [exists 0, (Z.of_nat n); lia |].
      destruct (Z.lt_ge_cases (Z.of_nat n) (2 * plane_size));
        [exists 1, (Z.of_nat n - plane_size); lia |].
      destruct (Z.lt_ge_cases (Z.of_nat n) (3 * plane_size));
        [exists 2, (Z.of_nat n - 2 * plane_size); lia |].
      exists 3, (Z.of_nat n - 3 * plane_size). lia. }
    destruct Hc as (p & b & Hp & Hb & Hn').
    replace n with (Z.to_nat (p * plane_size + b)) at 1 by lia.
    rewrite (packed_byte out p b Hpacked Hp Hb).
    rewrite <- (nth_plane indices npixels p b Hb).
    destruct (nth_four_planes (plane indices npixels 0) (plane indices npixels 1)
                (plane indices npixels 2) (plane indices npixels 3)
                (Z.to_nat plane_size) (Z.to_nat b))
      as (E0 & E1 & E2 & E3); try apply length_plane; [lia |].
    assert (Hcp : p = 0 \/ p = 1 \/ p = 2 \/ p = 3) by lia.
    destruct Hcp as [-> | [-> | [-> | ->]]].
    + rewrite <- E0. f_equal. lia.
    + rewrite <- E1. f_equal. lia.
    + rewrite <- E2. f_equal. lia.
    + rewrite <- E3. f_equal. lia.
Qed.

End Packer.

(** C2 (amended).  For every width that is a multiple of 8 and every
    height whose product [width * height] fits [unsigned] (is below 2^32),
    and every index buffer of [width * height] values in [0,15], the packer
    returns four planes, and reading bit [7 - x mod 8] of byte
    [(y * width + x) / 8] of plane [p] as bit [p] of the index of pixel
    [(x, y)] gives back the index buffer, for all pixels. *)
Theorem convert_to_planar_round_trip (indices : list Z) width height :
  0 <= width < 2 ^ 32 -> 0 <= height < 2 ^ 32 ->
  width mod 8 = 0 ->
  Z.of_nat (length indices) = width * height ->
  width * height < 2 ^ 32 ->
  Forall (fun v => 0 <= v < 16) indices ->
  exists out,
    convert_to_planar true indices width height = Ok out
    /\ forall x y, 0 <= x < width -> 0 <= y < height ->
         unpack out width height x y = nth (Z.to_nat (y * width + x)) indices 0.
Proof.
  intros Hwidth Hheight Hmul8 Hlen Hfit Hrange.
  exact (convert_to_planar_unpacks indices width height
           Hwidth Hheight Hmul8 Hlen Hfit Hrange).
Qed.

(** ** The packer reads the low four bits only *)

Lemma land_15_mod a b : a mod 16 = b mod 16 -> Z.land a 0x0F = Z.land b 0x0F.
Proof.
  intros H. change 0x0F with (Z.ones 4). rewrite !Z.land_ones by lia. exact H.
Qed.

Lemma pack_pixel_low_bits indices1 indices2 width plane_size y x out :
  Forall2 (fun a b => a mod 16 = b mod 16) indices1 indices2 ->
  pack_pixel indices1 width plane_size y x out
  = pack_pixel indices2 width plane_size y x out.
Proof.
  intros Hcong. unfold pack_pixel, vec_get.
  destruct (indices1 !! Z.to_nat (u32 (u32 (y * width) + x))) as [v1|] eqn:H1.
  - destruct (Forall2_lookup_l _ _ _ _ _ Hcong H1) as (v2 & -> & Hv).
    cbn [mbind result_bind]. rewrite (land_15_mod v1 v2 Hv). reflexivity.
  - apply lookup_ge_None in H1. rewrite (Forall2_length _ _ _ Hcong) in H1.
    apply lookup_ge_None in H1. rewrite H1. reflexivity.
Qed.

(** C8.  The output of the packer depends on the low four bits of the
    indices only: two buffers that are congruent entry by entry modulo 16
    are packed to the same result, and a buffer is packed like the buffer
    of its entries masked with [0x0F]. *)
Theorem convert_to_planar_low_bits malloc_ok indices1 indices2 width height :
  Forall2 (fun a b => a mod 16 = b mod 16) indices1 indices2 ->
  convert_to_planar malloc_ok indices1 width height
  = convert_to_planar malloc_ok indices2 width height
  /\ convert_to_planar malloc_ok indices1 width height
     = convert_to_planar malloc_ok (map (fun v => Z.land v 0x0F) indices1) width height.
Proof.
  assert (Heq : forall l1 l2,
             Forall2 (fun a b => a mod 16 = b mod 16) l1 l2 ->
             convert_to_planar malloc_ok l1 width height
             = convert_to_planar malloc_ok l2 width height).
  { intros l1 l2 Hcong. unfold convert_to_planar.
    destruct malloc_ok; cbn [negb]; [| reflexivity].
    apply for_loopM_ext. intros y out _.
    apply for_loopM_ext. intros x out' _.
    apply pack_pixel_low_bits. exact Hcong. }
  intros Hcong. split; [apply Heq; exact Hcong |].
  apply Heq. clear Hcong.
  induction indices1 as [|v l IH]; cbn [map]; constructor; [| exact IH].
  change 0x0F with (Z.ones 4). rewrite Z.land_ones by lia.
  rewrite Z.mod_mod by lia. reflexivity.
Qed.

Lemma convert_to_planar_low_bits_witness :
  convert_to_planar true [16; 31; 32; 47; 0; 15; 0; 15] 8 1
  = convert_to_planar true [0; 15; 0; 15; 0; 15; 0; 15] 8 1
  /\ convert_to_planar true [16; 31; 32; 47; 0; 15; 0; 15] 8 1
     = convert_to_planar true
         (map (fun v => Z.land v 0x0F) [16; 31; 32; 47; 0; 15; 0; 15]) 8 1.
Proof.
  apply (convert_to_planar_low_bits true [16; 31; 32; 47; 0; 15; 0; 15]
           [0; 15; 0; 15; 0; 15; 0; 15] 8 1).
  repeat constructor.
Defined.

(** ** The quantising loop of [main] *)

Section Quantize.

Variables (image : list Z) (width height : Z).
Hypothesis Hwidth : 0 <= width < 2 ^ 32.
Hypothesis Hheight : 0 <= height < 2 ^ 32.
Hypothesis Himage : Z.of_nat (length image) = 4 * (width * height).
Hypothesis Hfit : width * height < 2 ^ 32.

Local Abbreviation npixels := (width * height).

Lemma image_position x y c :
  0 <= x < width -> 0 <= y < height -> 0 <= c < 3 ->
  0 <= u32 (u32 (4 * u32 (u32 (y * width) + x)) + c) < Z.of_nat (length image).
Proof.
  intros Hx Hy Hc.
  assert (Hn : 0 <= y * width + x < npixels) by nia.
  rewrite (u32_small (y * width)) by nia.
  rewrite (u32_small (y * width + x)) by lia.
  set (n := y * width + x) in *.
  assert (Hr : 0 <= u32 (4 * n) <= 4 * n /\ u32 (4 * n) <= 2 ^ 32 - 4)
    by (unfold u32; dlia).
  rewrite (u32_small (u32 (4 * n) + c)) by lia. lia.
Qed.

Lemma quantize_pixel_step x y indices :
  0 <= x < width -> 0 <= y < height ->
  quantized npixels indices ->
  exists indices',
    quantize_pixel image width y x indices = Ok indices' /\ quantized npixels indices'.
Proof.
  intros Hx Hy [Hlen Hrange].
  assert (Hn : 0 <= y * width + x < npixels) by nia.
  unfold quantize_pixel.
  rewrite !vec_get_nth by (apply image_position; lia).
  cbn [mbind result_bind].
  rewrite (u32_small (y * width)) by nia.
  rewrite (u32_small (y * width + x)) by lia.
  rewrite vec_set_insert by lia.
  eexists. split; [reflexivity |]. split.
  - rewrite length_insert. exact Hlen.
  - apply Forall_insert; [exact Hrange | apply map_to_ega_range].
Qed.

(** Without overflow of [width * height] the pixel loops of [main] succeed
    and fill the index buffer with palette indices. *)
Lemma quantize_ok :
  exists indices, quantize image width height = Ok indices /\ quantized npixels indices.
Proof.
  unfold quantize.
  destruct (for_loopM_inv (fun _ ind => quantized npixels ind)
              (fun y ind =>
                 for_loopM (Z.to_nat width) 0
                   (fun x ind => quantize_pixel image width y x ind) ind)
              (Z.to_nat height) 0
              (replicate (Z.to_nat (u32 npixels)) 0)) as (ind & Hrun & Hq).
  - rewrite u32_small by nia. split.
    + rewrite length_replicate. nia.
    + apply Forall_replicate. lia.
  - intros y ind Hy Hind.
    apply (for_loopM_inv (fun _ ind => quantized npixels ind)
             (fun x ind => quantize_pixel image width y x ind)
             (Z.to_nat width) 0 ind Hind).
    intros x ind' Hx Hind'. apply quantize_pixel_step; [lia | lia | exact Hind'].
  - exists ind. split; [exact Hrun | exact Hq].
Qed.

End Quantize.

(** ** Runs of [main] *)

(** C3 (amended).  A run on a decoded image whose width is a multiple of
    8 and which has fewer than 2^32 pixels, with a [malloc] and an [fopen]
    that succeed and a stream that takes every byte, ends with [return 0]
    and an output file of exactly [4 * (width * height / 8)] bytes: plane
    0, plane 1, plane 2 and plane 3 of the quantised indices, each of
    [width * height / 8] bytes, and nothing between them. *)
Theorem main_writes_planes e :
  3 <= argc e -> load_file_error e = 0 -> decode_error e = 0 ->
  0 <= width e < 2 ^ 32 -> 0 <= height e < 2 ^ 32 ->
  width e mod 8 = 0 ->
  Z.of_nat (length (image e)) = 4 * (width e * height e) ->
  width e * height e < 2 ^ 32 ->
  malloc_ok e = true -> fopen_ok e = true ->
  4 * (width e * height e / 8) <= fwrite_accepts e ->
  exists indices,
    quantize (image e) (width e) (height e) = Ok indices
    /\ main e = Ok {| file_bytes :=
                        plane indices (width e * height e) 0
                        ++ plane indices (width e * height e) 1
                        ++ plane indices (width e * height e) 2
                        ++ plane indices (width e * height e) 3;
                      reported_size := 4 * (width e * height e / 8) |}
    /\ (forall p, Z.of_nat (length (plane indices (width e * height e) p))
                  = width e * height e / 8)
    /\ Z.of_nat (length (plane indices (width e * height e) 0
                         ++ plane indices (width e * height e) 1
                         ++ plane indices (width e * height e) 2
                         ++ plane indices (width e * height e) 3))
       = 4 * (width e * height e / 8).
Proof.
  intros Hargc Hload Hdecode Hw Hh Hmul8 Himage Hfit Hmalloc Hfopen Hwrite.
  destruct (quantize_ok (image e) (width e) (height e) Hw Hh Himage Hfit)
    as (indices & Hq & Hlen & Hrange).
  destruct (convert_to_planar_layout indices (width e) (height e)
              Hw Hh Hmul8 Hlen Hfit) as (out & Hrun & Hout & Hsize).
  assert (Hps : 0 <= width e * height e / 8 < 2 ^ 29) by dlia.
  exists indices. split; [exact Hq |]. split; [| split].
  - unfold main.
    destruct (Z.ltb_spec (argc e) 3) as [? | _]; [lia |].
    rewrite Hload, Hdecode, Hmul8, Hq. cbn [Z.eqb negb mbind result_bind].
    rewrite Hmalloc, Hrun. cbn [mbind result_bind].
    rewrite Hfopen. cbn [negb].
    rewrite (u32_small (width e * height e)), usize_small by lia.
    f_equal. f_equal; [| lia].
    rewrite <- Hout. apply take_ge. lia.
  - intros p. rewrite length_plane. lia.
  - rewrite <- Hout. exact Hsize.
Qed.

(** C6.  When the decoded width is not a multiple of 8 the run ends with
    the diagnostic about the width on the error stream and status 1; no
    output file is opened, and neither the image bytes nor the outcomes of
    [malloc], [fopen] and [fwrite] have any part in the run. *)
Theorem main_rejects_width e :
  3 <= argc e -> load_file_error e = 0 -> decode_error e = 0 ->
  width e mod 8 <> 0 ->
  main e = Exit 1 [DWidthNotMultipleOf8].
Proof.
  intros Hargc Hload Hdecode Hmul8. unfold main.
  destruct (Z.ltb_spec (argc e) 3) as [? | _]; [lia |].
  rewrite Hload, Hdecode. cbn [Z.eqb negb].
  destruct (Z.eqb_spec (width e mod 8) 0) as [? | _]; [contradiction |].
  reflexivity.
Qed.

Lemma main_rejects_width_witness :
  main {| argc := 3; load_file_error := 0; decode_error := 0;
          image := replicate (4 * 321) 255; width := 321; height := 1;
          malloc_ok := true; fopen_ok := true; fwrite_accepts := 4096 |}
  = Exit 1 [DWidthNotMultipleOf8].
Proof.
  apply main_rejects_width;
    [cbn; lia | reflexivity | reflexivity | vm_compute; discriminate].
Defined.

(** The pixel loops write no diagnostic and do not end the process. *)
Lemma for_loopM_no_exit {S : Type} (body : Z -> S -> result S) n :
  (forall j t code diag, body j t <> Exit code diag) ->
  forall i s code diag, for_loopM n i body s <> Exit code diag.
Proof.
  intros Hbody. induction n as [|n IH]; intros i s code diag; [discriminate |].
  cbn [for_loopM]. destruct (body i s) as [t | c d |] eqn:Hb; cbn.
  - apply IH.
  - exfalso. exact (Hbody _ _ _ _ Hb).
  - discriminate.
Qed.

Lemma vec_get_no_exit v i code diag : vec_get v i <> Exit code diag.
Proof. unfold vec_get. destruct (v !! Z.to_nat i); discriminate. Qed.

Lemma vec_set_no_exit v i x code diag : vec_set v i x <> Exit code diag.
Proof. unfold vec_set. destruct (v !! Z.to_nat i); discriminate. Qed.

Lemma quantize_no_exit image width height code diag :
  quantize image width height <> Exit code diag.
Proof.
  unfold quantize. apply for_loopM_no_exit. intros y ind.
  apply for_loopM_no_exit. intros x ind' c d. unfold quantize_pixel.
  repeat match goal with
    | |- context [vec_get ?v ?i] =>
        let H := fresh in
        destruct (vec_get v i) eqn:H;
        [| exfalso; exact (vec_get_no_exit _ _ _ _ H) | discriminate];
        cbn [mbind result_bind]
    end.
  apply vec_set_no_exit.
Qed.

Lemma pack_pixel_no_exit indices width plane_size y x out code diag :
  pack_pixel indices width plane_size y x out <> Exit code diag.
Proof.
  unfold pack_pixel.
  destruct (vec_get indices _) eqn:H;
    [| exfalso; exact (vec_get_no_exit _ _ _ _ H) | discriminate].
  cbn [mbind result_bind]. apply for_loopM_no_exit.
  intros plane o c d. unfold pack_plane.
  destruct (negb _); [| discriminate].
  destruct (vec_get o _) eqn:H';
    [| exfalso; exact (vec_get_no_exit _ _ _ _ H') | discriminate].
  cbn [mbind result_bind]. apply vec_set_no_exit.
Qed.

(** The packer ends the process only when [malloc] fails. *)
Lemma convert_to_planar_exit malloc_ok indices width height code diag :
  convert_to_planar malloc_ok indices width height = Exit code diag ->
  malloc_ok = false /\ code = 1 /\ diag = [DAllocationFailed].
Proof.
  unfold convert_to_planar. destruct malloc_ok; cbn [negb].
  - intros H. exfalso. revert H. apply for_loopM_no_exit. intros y o.
    apply for_loopM_no_exit. intros x o'. apply pack_pixel_no_exit.
  - intros H. inversion H. auto.
Qed.

(** Every failure that the program looks for ends the run with its
    diagnostic and status 1, before the output file is opened. *)
Lemma main_detected_failure e d :
  detected_failure e d -> main e = Exit 1 [d].
Proof.
  intros Hfail. unfold main.
  destruct Hfail as [Hargc | Hargc Hload | Hargc Hload Hdecode
                    | Hargc Hload Hdecode Hmul8
                    | indices Hargc Hload Hdecode Hmul8 Hq Hmalloc
                    | indices planar Hargc Hload Hdecode Hmul8 Hq Hp Hfopen].
  - destruct (Z.ltb_spec (argc e) 3); [reflexivity | lia].
  - destruct (Z.ltb_spec (argc e) 3); [lia |].
    destruct (Z.eqb_spec (load_file_error e) 0); [contradiction | reflexivity].
  - destruct (Z.ltb_spec (argc e) 3); [lia |].
    rewrite Hload. cbn [Z.eqb negb].
    destruct (Z.eqb_spec (decode_error e) 0); [contradiction | reflexivity].
  - destruct (Z.ltb_spec (argc e) 3); [lia |].
    rewrite Hload, Hdecode. cbn [Z.eqb negb].
    destruct (Z.eqb_spec (width e mod 8) 0); [contradiction | reflexivity].
  - destruct (Z.ltb_spec (argc e) 3); [lia |].
    rewrite Hload, Hdecode, Hmul8, Hq. cbn [Z.eqb negb mbind result_bind].
    rewrite Hmalloc. reflexivity.
  - destruct (Z.ltb_spec (argc e) 3); [lia |].
    rewrite Hload, Hdecode, Hmul8, Hq. cbn [Z.eqb negb mbind result_bind].
    rewrite Hp. cbn [mbind result_bind]. rewrite Hfopen. reflexivity.
Qed.


(** C4.  The indices 0,15,0,15,0,15,0,15 of an 8-by-1 image are packed to
    the four bytes 0x55, one per plane; black and white pixels in turn
    quantise to these indices, and the run on such an image writes these
    four bytes. *)
Theorem stripes_packed :
  convert_to_planar true [0; 15; 0; 15; 0; 15; 0; 15] 8 1
  = Ok [0x55; 0x55; 0x55; 0x55]
  /\ quantize stripes 8 1 = Ok [0; 15; 0; 15; 0; 15; 0; 15]
  /\ main (stripes_run 4)
     = Ok {| file_bytes := [0x55; 0x55; 0x55; 0x55]; reported_size := 4 |}.
Proof. repeat split; vm_compute; reflexivity. Qed.

(** A failure of the output stream is not looked for: when the stream
    takes fewer bytes than the planes have, the run still ends with
    [return 0] and no diagnostic, reports the full size, and leaves a file
    that holds only the bytes taken. *)
Lemma main_short_write e :
  3 <= argc e -> load_file_error e = 0 -> decode_error e = 0 ->
  0 <= width e < 2 ^ 32 -> 0 <= height e < 2 ^ 32 ->
  width e mod 8 = 0 ->
  Z.of_nat (length (image e)) = 4 * (width e * height e) ->
  width e * height e < 2 ^ 32 ->
  malloc_ok e = true -> fopen_ok e = true ->
  0 <= fwrite_accepts e < 4 * (width e * height e / 8) ->
  exists w,
    main e = Ok w
    /\ Z.of_nat (length (file_bytes w)) = fwrite_accepts e
    /\ reported_size w = 4 * (width e * height e / 8).
Proof.
  intros Hargc Hload Hdecode Hw Hh Hmul8 Himage Hfit Hmalloc Hfopen Hwrite.
  destruct (quantize_ok (image e) (width e) (height e) Hw Hh Himage Hfit)
    as (indices & Hq & Hlen & Hrange).
  destruct (convert_to_planar_layout indices (width e) (height e)
              Hw Hh Hmul8 Hlen Hfit) as (out & Hrun & _ & Hsize).
  assert (Hps : 0 <= width e * height e / 8 < 2 ^ 29) by dlia.
  unfold main.
  destruct (Z.ltb_spec (argc e) 3) as [? | _]; [lia |].
  rewrite Hload, Hdecode, Hmul8, Hq. cbn [Z.eqb negb mbind result_bind].
  rewrite Hmalloc, Hrun. cbn [mbind result_bind].
  rewrite Hfopen. cbn [negb].
  rewrite (u32_small (width e * height e)), usize_small by lia.
  eexists. split; [reflexivity |]. cbn [file_bytes reported_size].
  split; [| lia]. rewrite length_take. lia.
Qed.

(** C7, at the run in which the output stream takes two of the four
    bytes: [main] does not look at what [fwrite] returns, so the run ends
    with [return 0] and no diagnostic, reports four bytes written, and
    leaves a file of two bytes. *)
Theorem main_short_write_unreported :
  main (stripes_run 2)
  = Ok {| file_bytes := [0x55; 0x55]; reported_size := 4 |}.
Proof. vm_compute. reflexivity. Qed.

(** ** Alpha is not read *)

Lemma quantize_pixel_alpha image1 image2 width y x indices :
  length image1 = length image2 ->
  (forall n c, 0 <= n -> 0 <= c < 3 ->
     nth (Z.to_nat (4 * n + c)) image1 0 = nth (Z.to_nat (4 * n + c)) image2 0) ->
  quantize_pixel image1 width y x indices = quantize_pixel image2 width y x indices.
Proof.
  intros Hlen Hrgb.
  assert (Hget : forall c, 0 <= c < 3 ->
            vec_get image1 (u32 (u32 (4 * u32 (u32 (y * width) + x)) + c))
            = vec_get image2 (u32 (u32 (4 * u32 (u32 (y * width) + x)) + c))).
  { intros c Hc. set (m := u32 (u32 (y * width) + x)).
    assert (Hpos : exists n, 0 <= n /\ u32 (u32 (4 * m) + c) = 4 * n + c).
    { exists (u32 (4 * m) / 4).
      assert (Hm : 0 <= u32 (4 * m) <= 2 ^ 32 - 4 /\ u32 (4 * m) mod 4 = 0)
        by (unfold u32; dlia).
      rewrite (u32_small (u32 (4 * m) + c)) by lia. dlia. }
    destruct Hpos as (n & Hn & ->).
    specialize (Hrgb n c Hn Hc). rewrite !nth_lookup in Hrgb.
    unfold vec_get.
    destruct (image1 !! Z.to_nat (4 * n + c)) as [v1|] eqn:H1.
    - destruct (image2 !! Z.to_nat (4 * n + c)) as [v2|] eqn:H2.
      + cbn in Hrgb. subst v2. reflexivity.
      + apply lookup_lt_Some in H1. apply lookup_ge_None in H2. lia.
    - apply lookup_ge_None in H1. rewrite Hlen in H1.
      apply lookup_ge_None in H1. rewrite H1. reflexivity. }
  unfold quantize_pixel. rewrite !Hget by lia. reflexivity.
Qed.

(** C9.  Two decoded images of the same size that agree on the red, green
    and blue byte of every pixel give the same run, whatever their alpha
    bytes are. *)
Theorem main_alpha_independent e image' :
  length image' = length (image e) ->
  (forall n c, 0 <= n -> 0 <= c < 3 ->
     nth (Z.to_nat (4 * n + c)) image' 0 = nth (Z.to_nat (4 * n + c)) (image e) 0) ->
  main (with_image e image') = main e.
Proof.
  intros Hlen Hrgb. unfold main, with_image. cbn [argc load_file_error
    decode_error image width height malloc_ok fopen_ok fwrite_accepts].
  replace (quantize image' (width e) (height e))
    with (quantize (image e) (width e) (height e)); [reflexivity |].
  unfold quantize. apply for_loopM_ext. intros y ind _.
  apply for_loopM_ext. intros x ind' _. symmetry.
  apply quantize_pixel_alpha; assumption.
Qed.

Lemma main_alpha_independent_witness :
  main (with_image (stripes_run 4)
          [0; 0; 0; 0; 255; 255; 255; 128; 0; 0; 0; 7; 255; 255; 255; 0;
           0; 0; 0; 255; 255; 255; 255; 1; 0; 0; 0; 64; 255; 255; 255; 200])
  = main (stripes_run 4).
Proof.
  apply (main_alpha_independent (stripes_run 4)); [reflexivity |].
  intros n c Hn Hc.
  assert (Hcase : n < 8 \/ 8 <= n) by lia.
  destruct Hcase as [Hlt | Hge].
  - assert (Hn' : n = 0 \/ n = 1 \/ n = 2 \/ n = 3 \/ n = 4 \/ n = 5 \/ n = 6 \/ n = 7)
      by lia.
    assert (Hc' : c = 0 \/ c = 1 \/ c = 2) by lia.
    destruct Hn' as [-> | [-> | [-> | [-> | [-> | [-> | [-> | ->]]]]]]];
      destruct Hc' as [-> | [-> | ->]]; reflexivity.
  - rewrite !nth_overflow by (cbn [length stripes_run image stripes]; lia).
    reflexivity.
Defined.

(** ** Every access is in bounds when [width * height] fits [unsigned] *)

(** C10 (amended).  When the width is a multiple of 8, the decoded buffer
    has [4 * width * height] bytes and [width * height] is below 2^32, no
    access leaves its buffer: the pixel loops of [main] run to their end
    and fill an index buffer of [width * height] palette indices; the
    packer runs to its end on every index buffer of that length; the
    positions [y * width + x], [4 * (y * width + x) + c] for [c] in 0..2
    and [plane * plane_size + byte_offset], as the code computes them, lie
    inside the index buffer, the decoded buffer and the [4 * plane_size]
    bytes of the plane buffer; and [map_to_ega] returns a value in
    [0,15]. *)
Theorem accesses_in_bounds image width height :
  0 <= width < 2 ^ 32 -> 0 <= height < 2 ^ 32 ->
  width mod 8 = 0 ->
  Z.of_nat (length image) = 4 * (width * height) ->
  width * height < 2 ^ 32 ->
  (exists indices,
     quantize image width height = Ok indices
     /\ Z.of_nat (length indices) = width * height
     /\ Forall (fun v => 0 <= v < 16) indices)
  /\ (forall indices : list Z,
        Z.of_nat (length indices) = width * height ->
        exists out,
          convert_to_planar true indices width height = Ok out
          /\ Z.of_nat (length out) = 4 * (u32 (width * height) / 8))
  /\ (forall (indices : list Z) x y,
        Z.of_nat (length indices) = width * height ->
        0 <= x < width -> 0 <= y < height ->
        0 <= u32 (u32 (y * width) + x) < Z.of_nat (length indices)
        /\ (forall c, 0 <= c < 3 ->
              0 <= u32 (u32 (4 * u32 (u32 (y * width) + x)) + c)
                < Z.of_nat (length image))
        /\ (forall plane, 0 <= plane < 4 ->
              0 <= usize (usize (plane * (u32 (width * height) / 8))
                          + u32 (u32 (y * width) + x) / 8)
                < 4 * (u32 (width * height) / 8)))
  /\ (forall r g b, 0 <= map_to_ega r g b < 16).
Proof.
  intros Hw Hh Hmul8 Himage Hfit.
  split; [| split; [| split]].
  - destruct (quantize_ok image width height Hw Hh Himage Hfit)
      as (indices & Hq & Hlen & Hrange).
    exists indices. auto.
  - intros indices Hlen.
    destruct (convert_to_planar_layout indices width height Hw Hh Hmul8 Hlen Hfit)
      as (out & Hrun & _ & Hsize).
    exists out. split; [exact Hrun |].
    rewrite (u32_small (width * height)) by nia. exact Hsize.
  - intros indices x y Hlen Hx Hy. split; [| split].
    + destruct (pixel_position width height x y Hw Hh Hmul8 Hfit Hx Hy)
        as (Hk & -> & _). lia.
    + intros c Hc.
      apply (image_position image width height Hw Hh Himage Hfit); assumption.
    + intros plane Hplane.
      destruct (pixel_position width height x y Hw Hh Hmul8 Hfit Hx Hy)
        as (Hk & -> & _).
      pose proof (npixels_planes width height Hmul8) as Hn.
      rewrite (u32_small (width * height)) by nia.
      assert (Hc : plane = 0 \/ plane = 1 \/ plane = 2 \/ plane = 3) by lia.
      destruct Hc as [-> | [-> | [-> | ->]]];
        rewrite (usize_small (_ * (width * height / 8))) by dlia;
        rewrite usize_small by dlia; dlia.
  - apply map_to_ega_range.
Qed.

(** ** When [width * height] does not fit [unsigned] *)

(** If the 32-bit product leaves a plane size of 0, the plane buffer is
    empty and the first pixel with bit 0 set is written outside it. *)
Lemma convert_to_planar_overflow_undefined indices width height v :
  0 < width -> 0 < height ->
  u32 (width * height) / 8 = 0 ->
  indices !! 0%nat = Some v -> Z.testbit v 0 = true ->
  convert_to_planar true indices width height = Undefined.
Proof.
  intros Hw Hh Hps Hv Hbit. unfold convert_to_planar. cbn [negb].
  rewrite Hps. change (Z.to_nat (usize (0 * 4))) with 0%nat. cbn [replicate].
  apply for_loopM_undefined; [lia |].
  apply for_loopM_undefined; [lia |].
  unfold pack_pixel. rewrite Z.mul_0_l. change (u32 (u32 0 + 0)) with 0.
  unfold vec_get at 1. change (Z.to_nat 0) with 0%nat. rewrite Hv.
  cbn [mbind result_bind for_loopM]. unfold pack_plane.
  rewrite (land_shiftr_1 _ 0), (testbit_land_15 _ 0), Hbit by lia. reflexivity.
Qed.

(** If the 32-bit product is 0, the index buffer of [main] is empty and
    the index of the first pixel is written outside it. *)
Lemma quantize_overflow_undefined image width height :
  0 < width -> 0 < height ->
  u32 (width * height) = 0 ->
  (3 <= length image)%nat ->
  quantize image width height = Undefined.
Proof.
  intros Hw Hh Hn Himage. unfold quantize.
  rewrite Hn. change (Z.to_nat 0) with 0%nat. cbn [replicate].
  apply for_loopM_undefined; [lia |].
  apply for_loopM_undefined; [lia |].
  unfold quantize_pixel. rewrite Z.mul_0_l.
  change (u32 (u32 0 + 0)) with 0. change (u32 (4 * 0)) with 0.
  change (u32 (0 + 0)) with 0. change (u32 (0 + 1)) with 1.
  change (u32 (0 + 2)) with 2.
  rewrite !vec_get_nth by lia. reflexivity.
Qed.

Lemma main_overflow_undefined e :
  3 <= argc e -> load_file_error e = 0 -> decode_error e = 0 ->
  width e mod 8 = 0 ->
  0 < width e -> 0 < height e ->
  u32 (width e * height e) = 0 ->
  (3 <= length (image e))%nat ->
  main e = Undefined.
Proof.
  intros Hargc Hload Hdecode Hmul8 Hw Hh Hn Himage. unfold main.
  destruct (Z.ltb_spec (argc e) 3) as [? | _]; [lia |].
  rewrite Hload, Hdecode, Hmul8. cbn [Z.eqb negb].
  rewrite (quantize_overflow_undefined _ _ _ Hw Hh Hn Himage). reflexivity.
Qed.

Lemma length_huge_indices : Z.of_nat (length huge_indices) = 65536 * 65536.
Proof. unfold huge_indices. rewrite length_replicate. lia. Qed.

Lemma length_huge_image : Z.of_nat (length huge_image) = 4 * (65536 * 65536).
Proof. unfold huge_image. rewrite length_replicate. lia. Qed.

Lemma convert_to_planar_huge :
  convert_to_planar true huge_indices 65536 65536 = Undefined.
Proof.
  apply (convert_to_planar_overflow_undefined huge_indices 65536 65536 15);
    [lia | lia | reflexivity | | reflexivity].
  unfold huge_indices. apply lookup_replicate_2. lia.
Qed.

Lemma main_huge_run : main huge_run = Undefined.
Proof.
  apply main_overflow_undefined;
    [unfold huge_run; cbn [argc]; lia | reflexivity | reflexivity | reflexivity
    | unfold huge_run; cbn [width]; lia | unfold huge_run; cbn [height]; lia
    | reflexivity |].
  change (image huge_run) with huge_image.
  pose proof length_huge_image. lia.
Qed.

(** ** Instances *)

Lemma convert_to_planar_round_trip_witness :
  exists out,
    convert_to_planar true [0; 15; 0; 15; 0; 15; 0; 15] 8 1 = Ok out
    /\ forall x y, 0 <= x < 8 -> 0 <= y < 1 ->
         unpack out 8 1 x y
         = nth (Z.to_nat (y * 8 + x)) [0; 15; 0; 15; 0; 15; 0; 15] 0.
Proof.
  apply (convert_to_planar_round_trip [0; 15; 0; 15; 0; 15; 0; 15] 8 1);
    [lia | lia | reflexivity | reflexivity | reflexivity |].
  repeat constructor; lia.
Defined.

(** C2, counterexample.  The claim as stated fails for a buffer of 65536
    by 65536 indices: the 32-bit product [width * height] is 0, the plane
    buffer is empty, and the packer writes outside it; no planes are
    produced. *)
Lemma convert_to_planar_round_trip_overflow :
  65536 mod 8 = 0
  /\ Z.of_nat (length huge_indices) = 65536 * 65536
  /\ Forall (fun v => 0 <= v < 16) huge_indices
  /\ ~ exists out,
         convert_to_planar true huge_indices 65536 65536 = Ok out
         /\ forall x y, 0 <= x < 65536 -> 0 <= y < 65536 ->
              unpack out 65536 65536 x y
              = nth (Z.to_nat (y * 65536 + x)) huge_indices 0.
Proof.
  split; [reflexivity |]. split; [exact length_huge_indices |]. split.
  - unfold huge_indices. apply Forall_replicate. lia.
  - intros (out & Hrun & _). rewrite convert_to_planar_huge in Hrun.
    discriminate.
Qed.

Lemma main_writes_planes_witness :
  exists indices,
    quantize stripes 8 1 = Ok indices
    /\ main (stripes_run 4)
       = Ok {| file_bytes := plane indices 8 0 ++ plane indices 8 1
                             ++ plane indices 8 2 ++ plane indices 8 3;
               reported_size := 4 |}
    /\ (forall p, Z.of_nat (length (plane indices 8 p)) = 1)
    /\ Z.of_nat (length (plane indices 8 0 ++ plane indices 8 1
                         ++ plane indices 8 2 ++ plane indices 8 3)) = 4.
Proof.
  apply (main_writes_planes (stripes_run 4));
    unfold stripes_run; cbn [argc load_file_error decode_error image width
      height malloc_ok fopen_ok fwrite_accepts]; try reflexivity; lia.
Defined.

(** C3, counterexample.  The claim as stated fails for a valid image of
    65536 by 65536 pixels: the index buffer of [main] is allocated with
    the 32-bit product [width * height], which is 0, and the first index
    is written outside it; no output of 2^31 bytes is written. *)
Lemma main_overflow_no_output :
  3 <= argc huge_run /\ load_file_error huge_run = 0 /\ decode_error huge_run = 0
  /\ width huge_run mod 8 = 0
  /\ Z.of_nat (length (image huge_run)) = 4 * (width huge_run * height huge_run)
  /\ malloc_ok huge_run = true /\ fopen_ok huge_run = true
  /\ 4 * (width huge_run * height huge_run / 8) <= fwrite_accepts huge_run
  /\ ~ exists w,
         main huge_run = Ok w
         /\ Z.of_nat (length (file_bytes w))
            = 4 * (width huge_run * height huge_run / 8).
Proof.
  split; [unfold huge_run; cbn [argc]; lia |]. do 3 (split; [reflexivity |]).
  split; [exact length_huge_image |]. do 2 (split; [reflexivity |]).
  split; [apply Z.leb_le; reflexivity |].
  intros (w & Hrun & _). rewrite main_huge_run in Hrun. discriminate.
Qed.

Lemma accesses_in_bounds_witness :
  (exists indices,
     quantize stripes 8 1 = Ok indices
     /\ Z.of_nat (length indices) = 8 * 1
     /\ Forall (fun v => 0 <= v < 16) indices)
  /\ (forall indices : list Z,
        Z.of_nat (length indices) = 8 * 1 ->
        exists out,
          convert_to_planar true indices 8 1 = Ok out
          /\ Z.of_nat (length out) = 4 * (u32 (8 * 1) / 8))
  /\ (forall (indices : list Z) x y,
        Z.of_nat (length indices) = 8 * 1 ->
        0 <= x < 8 -> 0 <= y < 1 ->
        0 <= u32 (u32 (y * 8) + x) < Z.of_nat (length indices)
        /\ (forall c, 0 <= c < 3 ->
              0 <= u32 (u32 (4 * u32 (u32 (y * 8) + x)) + c)
                < Z.of_nat (length stripes))
        /\ (forall plane, 0 <= plane < 4 ->
              0 <= usize (usize (plane * (u32 (8 * 1) / 8))
                          + u32 (u32 (y * 8) + x) / 8)
                < 4 * (u32 (8 * 1) / 8)))
  /\ (forall r g b, 0 <= map_to_ega r g b < 16).
Proof.
  apply (accesses_in_bounds stripes 8 1);
    [lia | lia | reflexivity | reflexivity | reflexivity].
Defined.

(** C10, counterexample.  The claim as stated fails for buffers of 65536
    by 65536 pixels: the lengths are as the claim requires, but the plane
    size computed in [unsigned] is 0, so the first write
    [out[0 * plane_size + 0]] is not below [4 * plane_size] and the packer
    leaves its buffer. *)
Lemma accesses_out_of_bounds_overflow :
  65536 mod 8 = 0
  /\ Z.of_nat (length huge_indices) = 65536 * 65536
  /\ Z.of_nat (length huge_image) = 4 * (65536 * 65536)
  /\ ~ (usize (usize (0 * (u32 (65536 * 65536) / 8)) + u32 (u32 (0 * 65536) + 0) / 8)
        < 4 * (u32 (65536 * 65536) / 8))
  /\ convert_to_planar true huge_indices 65536 65536 = Undefined.
Proof.
  split; [reflexivity |]. split; [exact length_huge_indices |].
  split; [exact length_huge_image |]. split; [vm_compute; discriminate |].
  exact convert_to_planar_huge.
Qed.

(** * Further properties of the code *)

(** ** Loops that end well *)

(** A loop that ends well has run every turn well, each from a state
    that satisfies whatever the start satisfies and the turns keep. *)
Lemma for_loopM_Ok_turn {S : Type} (P : S -> Prop) (body : Z -> S -> result S) n :
  (forall j t t', P t -> body j t = Ok t' -> P t') ->
  forall i s s',
    P s -> for_loopM n i body s = Ok s' ->
    P s' /\ forall j, i <= j < i + Z.of_nat n ->
              exists t t', P t /\ body j t = Ok t'.
Proof.
  intros Hkeep. induction n as [|n IH]; intros i s s' Hs Hrun.
  - cbn in Hrun. inversion Hrun; subst. split; [exact Hs |]. intros j Hj. lia.
  - cbn [for_loopM] in Hrun.
    destruct (body i s) as [t | c d |] eqn:Hb; cbn in Hrun; try discriminate.
    destruct (IH (i + 1) t s' (Hkeep _ _ _ Hs Hb) Hrun) as [Hs' Hturns].
    split; [exact Hs' |]. intros j Hj.
    destruct (decide (j = i)) as [-> | Hne].
    + exists s, t. auto.
    + apply Hturns. lia.
Qed.

(** ** Distances *)

(** X1.  On bytes, [colour_distance] is symmetric, is 0 exactly for equal
    colours, and is at most 195075, so it never reaches the initial
    [best_dist] 0xffffffff. *)
Theorem colour_distance_bytes a0 a1 a2 b0 b1 b2 :
  0 <= a0 < 256 -> 0 <= a1 < 256 -> 0 <= a2 < 256 ->
  0 <= b0 < 256 -> 0 <= b1 < 256 -> 0 <= b2 < 256 ->
  colour_distance (a0, a1, a2) (b0, b1, b2) = colour_distance (b0, b1, b2) (a0, a1, a2)
  /\ (colour_distance (a0, a1, a2) (b0, b1, b2) = 0 <-> (a0, a1, a2) = (b0, b1, b2))
  /\ 0 <= colour_distance (a0, a1, a2) (b0, b1, b2) <= 195075.
Proof.
  intros Ha0 Ha1 Ha2 Hb0 Hb1 Hb2. unfold colour_distance.
  assert (Hsq : forall d, -255 <= d <= 255 -> 0 <= d * d <= 65025).
  { intros d Hd. split; [apply Z.square_nonneg |].
    assert (0 <= (255 - d) * (255 + d)) by (apply Z.mul_nonneg_nonneg; lia).
    lia. }
  pose proof (Hsq (a0 - b0) ltac:(lia)) as H0.
  pose proof (Hsq (a1 - b1) ltac:(lia)) as H1.
  pose proof (Hsq (a2 - b2) ltac:(lia)) as H2.
  assert (Hsum : 0 <= (a0 - b0) * (a0 - b0) + (a1 - b1) * (a1 - b1)
                      + (a2 - b2) * (a2 - b2) <= 195075) by lia.
  rewrite (u32_small ((a0 - b0) * (a0 - b0) + _ + _)) by lia.
  split; [| split].
  - replace ((b0 - a0) * (b0 - a0) + (b1 - a1) * (b1 - a1) + (b2 - a2) * (b2 - a2))
      with ((a0 - b0) * (a0 - b0) + (a1 - b1) * (a1 - b1) + (a2 - b2) * (a2 - b2))
      by ring.
    rewrite u32_small by lia. reflexivity.
  - split.
    + intros H. assert (a0 = b0) by nia. assert (a1 = b1) by nia.
      assert (a2 = b2) by nia. congruence.
    + intros H. inversion H; subst. ring.
  - exact Hsum.
Qed.

Lemma colour_distance_bytes_witness :
  colour_distance (0, 0, 85) (0, 0, 170) = colour_distance (0, 0, 170) (0, 0, 85)
  /\ (colour_distance (0, 0, 85) (0, 0, 170) = 0 <-> (0, 0, 85) = (0, 0, 170))
  /\ 0 <= colour_distance (0, 0, 85) (0, 0, 170) <= 195075.
Proof. apply (colour_distance_bytes 0 0 85 0 0 170); lia. Defined.

(** ** The quantiser on palette colours and on greys *)

(** X2.  Quantising is idempotent: the palette colour that [map_to_ega]
    picks for a pixel is quantised to the same index. *)
Theorem map_to_ega_idempotent r g b r' g' b' :
  palette_entry (map_to_ega r g b) = (r', g', b') ->
  map_to_ega r' g' b' = map_to_ega r g b.
Proof.
  intros Hentry. pose proof (map_to_ega_range r g b) as Hi.
  set (i := map_to_ega r g b) in *.
  assert (Hc : i = 0 \/ i = 1 \/ i = 2 \/ i = 3 \/ i = 4 \/ i = 5 \/ i = 6 \/ i = 7
               \/ i = 8 \/ i = 9 \/ i = 10 \/ i = 11 \/ i = 12 \/ i = 13 \/ i = 14
               \/ i = 15) by lia.
  clearbody i.
  repeat (destruct Hc as [-> | Hc]; [inversion Hentry; subst; reflexivity |]).
  subst i. inversion Hentry; subst. reflexivity.
Qed.

Lemma map_to_ega_idempotent_witness : map_to_ega 0 0xAA 0xAA = map_to_ega 10 160 180.
Proof. apply (map_to_ega_idempotent 10 160 180 0 0xAA 0xAA). reflexivity. Defined.

(** X3.  A grey pixel [(v, v, v)] is quantised to black up to 42, to dark
    grey from 43 to 127, to light grey from 128 to 212 and to white from
    213 on: no coloured entry is ever nearer to a grey. *)
Theorem map_to_ega_grey v :
  0 <= v < 256 ->
  map_to_ega v v v
  = if v <=? 42 then 0 else if v <=? 127 then 8 else if v <=? 212 then 7 else 15.
Proof.
  intros Hv.
  assert (Hall : forallb (fun v => map_to_ega v v v
                   =? (if v <=? 42 then 0 else if v <=? 127 then 8
                       else if v <=? 212 then 7 else 15)) (seqZ 0 256) = true)
    by (vm_compute; reflexivity).
  rewrite forallb_forall in Hall.
  apply Z.eqb_eq. apply Hall. apply list_elem_of_In. apply elem_of_seqZ. lia.
Qed.

Lemma map_to_ega_grey_witness : map_to_ega 128 128 128 = 7.
Proof. apply (map_to_ega_grey 128). lia. Defined.

(** ** The little-endian writer *)

(** X4.  [write_le16] adds exactly two bytes to the stream, the low byte
    first, and they give back the 16-bit value written. *)
Theorem write_le16_round_trip f v :
  0 <= v < 2 ^ 16 ->
  exists lo hi,
    write_le16 f v = f ++ [lo; hi]
    /\ 0 <= lo < 256 /\ 0 <= hi < 256
    /\ lo + 256 * hi = v.
Proof.
  intros Hv. exists (v mod 256), (v / 256).
  unfold write_le16, fputc. rewrite <- app_assoc. cbn [app].
  change 0xFF with (Z.ones 8). rewrite !Z.land_ones by lia.
  rewrite Z.shiftr_div_pow2 by lia. change (2 ^ 8) with 256.
  unfold u8. change (2 ^ 8) with 256. rewrite !Z.mod_mod by lia.
  rewrite (Z.mod_small (v / 256) 256) by dlia.
  repeat split; dlia.
Qed.

Lemma write_le16_round_trip_witness :
  exists lo hi,
    write_le16 [1; 2] 0xABCD = [1; 2] ++ [lo; hi]
    /\ 0 <= lo < 256 /\ 0 <= hi < 256
    /\ lo + 256 * hi = 0xABCD.
Proof. apply (write_le16_round_trip [1; 2] 0xABCD). lia. Defined.

(** ** What the index buffer holds *)

Lemma quantize_pixel_value image width height x y indices :
  0 <= width < 2 ^ 32 -> 0 <= height < 2 ^ 32 ->
  Z.of_nat (length image) = 4 * (width * height) ->
  width * height < 2 ^ 32 ->
  0 <= x < width -> 0 <= y < height ->
  quantized_upto image (width * height) (y * width + x) indices ->
  exists indices',
    quantize_pixel image width y x indices = Ok indices'
    /\ quantized_upto image (width * height) (y * width + x + 1) indices'.
Proof.
  intros Hw Hh Himage Hfit Hx Hy [Hlen Hval].
  assert (Hn : 0 <= y * width + x < width * height) by nia.
  pose proof (image_position image width height Hw Hh Himage Hfit x y) as Hpos.
  unfold quantize_pixel.
  rewrite !vec_get_nth by (apply Hpos; lia).
  cbn [mbind result_bind].
  rewrite (u32_small (y * width)) by nia.
  rewrite (u32_small (y * width + x)) by lia.
  set (n := y * width + x) in *.
  assert (Hr : 0 <= u32 (4 * n) <= 2 ^ 32 - 4) by (unfold u32; dlia).
  rewrite !(u32_small (u32 (4 * n) + _)) by lia.
  rewrite Z.add_0_r, vec_set_insert by lia.
  eexists. split; [reflexivity |]. split.
  - rewrite length_insert. exact Hlen.
  - intros m Hm. rewrite nth_insert_Z by lia. case_decide as Heq.
    + replace m with n by lia. reflexivity.
    + apply Hval. lia.
Qed.

(** The pixel loops store the stored index of every pixel. *)
Lemma quantize_stored image width height :
  0 <= width < 2 ^ 32 -> 0 <= height < 2 ^ 32 ->
  Z.of_nat (length image) = 4 * (width * height) ->
  width * height < 2 ^ 32 ->
  exists indices,
    quantize image width height = Ok indices
    /\ Z.of_nat (length indices) = width * height
    /\ forall n, 0 <= n < width * height ->
         nth (Z.to_nat n) indices 0 = stored_index image n.
Proof.
  intros Hw Hh Himage Hfit. unfold quantize.
  destruct (for_loopM_inv
              (fun y ind => quantized_upto image (width * height) (y * width) ind)
              (fun y ind =>
                 for_loopM (Z.to_nat width) 0
                   (fun x ind => quantize_pixel image width y x ind) ind)
              (Z.to_nat height) 0
              (replicate (Z.to_nat (u32 (width * height))) 0))
    as (ind & Hrun & Hlen & Hval).
  - rewrite u32_small by nia. split.
    + rewrite length_replicate. nia.
    + intros n Hn. lia.
  - intros y ind Hy Hind.
    destruct (for_loopM_inv
                (fun x ind => quantized_upto image (width * height) (y * width + x) ind)
                (fun x ind => quantize_pixel image width y x ind)
                (Z.to_nat width) 0 ind) as (ind' & Hrun' & Hind').
    + replace (y * width + 0) with (y * width) by lia. exact Hind.
    + intros x t Hx Ht.
      replace (y * width + (x + 1)) with (y * width + x + 1) by lia.
      apply (quantize_pixel_value image width height); assumption || lia.
    + exists ind'. split; [exact Hrun' |].
      replace ((y + 1) * width) with (y * width + (0 + Z.of_nat (Z.to_nat width)))
        by lia.
      exact Hind'.
  - exists ind. split; [exact Hrun |]. split; [exact Hlen |].
    intros n Hn. apply Hval. lia.
Qed.

(** X5.  For an image of fewer than 2^32 pixels the pixel loops of [main]
    fill an index buffer of [width * height] entries, and the entry of the
    pixel at [n = y * width + x] is the quantised colour of the three
    bytes that start at [4 * (n mod 2^30)]: the offset [4 * n] is an
    [unsigned] product and wraps at 2^32. *)
Theorem quantize_values image width height :
  0 <= width < 2 ^ 32 -> 0 <= height < 2 ^ 32 ->
  Z.of_nat (length image) = 4 * (width * height) ->
  width * height < 2 ^ 32 ->
  exists indices,
    quantize image width height = Ok indices
    /\ Z.of_nat (length indices) = width * height
    /\ forall x y, 0 <= x < width -> 0 <= y < height ->
         nth (Z.to_nat (y * width + x)) indices 0
         = map_to_ega
             (nth (Z.to_nat (4 * ((y * width + x) mod 2 ^ 30))) image 0)
             (nth (Z.to_nat (4 * ((y * width + x) mod 2 ^ 30) + 1)) image 0)
             (nth (Z.to_nat (4 * ((y * width + x) mod 2 ^ 30) + 2)) image 0).
Proof.
  intros Hw Hh Himage Hfit.
  destruct (quantize_stored image width height Hw Hh Himage Hfit)
    as (indices & Hrun & Hlen & Hval).
  exists indices. split; [exact Hrun |]. split; [exact Hlen |].
  intros x y Hx Hy. rewrite Hval by nia. unfold stored_index.
  assert (Hn : 0 <= y * width + x < 2 ^ 32) by nia.
  set (n := y * width + x) in *.
  assert (Hu : u32 (4 * n) = 4 * (n mod 2 ^ 30)) by (unfold u32; dlia).
  rewrite Hu. reflexivity.
Qed.

Lemma quantize_values_witness :
  exists indices,
    quantize stripes 8 1 = Ok indices
    /\ Z.of_nat (length indices) = 8 * 1
    /\ forall x y, 0 <= x < 8 -> 0 <= y < 1 ->
         nth (Z.to_nat (y * 8 + x)) indices 0
         = map_to_ega
             (nth (Z.to_nat (4 * ((y * 8 + x) mod 2 ^ 30))) stripes 0)
             (nth (Z.to_nat (4 * ((y * 8 + x) mod 2 ^ 30) + 1)) stripes 0)
             (nth (Z.to_nat (4 * ((y * 8 + x) mod 2 ^ 30) + 2)) stripes 0).
Proof.
  apply (quantize_values stripes 8 1); [lia | lia | reflexivity | reflexivity].
Defined.

(** X6.  For an image of at most 2^30 pixels the index buffer is the
    image quantised pixel by pixel in row-major order: the entry at
    [y * width + x] is [map_to_ega] of the red, green and blue byte of
    that pixel. *)
Theorem quantize_row_major image width height :
  0 <= width < 2 ^ 32 -> 0 <= height < 2 ^ 32 ->
  Z.of_nat (length image) = 4 * (width * height) ->
  width * height <= 2 ^ 30 ->
  exists indices,
    quantize image width height = Ok indices
    /\ Z.of_nat (length indices) = width * height
    /\ forall x y, 0 <= x < width -> 0 <= y < height ->
         nth (Z.to_nat (y * width + x)) indices 0
         = map_to_ega (nth (Z.to_nat (4 * (y * width + x))) image 0)
                      (nth (Z.to_nat (4 * (y * width + x) + 1)) image 0)
                      (nth (Z.to_nat (4 * (y * width + x) + 2)) image 0).
Proof.
  intros Hw Hh Himage Hfit.
  destruct (quantize_stored image width height Hw Hh Himage ltac:(lia))
    as (indices & Hrun & Hlen & Hval).
  exists indices. split; [exact Hrun |]. split; [exact Hlen |].
  intros x y Hx Hy.
  assert (Hn : 0 <= y * width + x < width * height) by nia.
  rewrite Hval by lia. unfold stored_index.
  rewrite u32_small by lia. reflexivity.
Qed.

Lemma quantize_row_major_witness :
  exists indices,
    quantize stripes 8 1 = Ok indices
    /\ Z.of_nat (length indices) = 8 * 1
    /\ forall x y, 0 <= x < 8 -> 0 <= y < 1 ->
         nth (Z.to_nat (y * 8 + x)) indices 0
         = map_to_ega (nth (Z.to_nat (4 * (y * 8 + x))) stripes 0)
                      (nth (Z.to_nat (4 * (y * 8 + x) + 1)) stripes 0)
                      (nth (Z.to_nat (4 * (y * 8 + x) + 2)) stripes 0).
Proof.
  apply (quantize_row_major stripes 8 1); [lia | lia | reflexivity | lia].
Defined.

(** X7.  For an image of more than 2^30 and fewer than 2^32 pixels the
    index buffer repeats with period 2^30: the entry of every pixel at a
    linear position [n] of 2^30 or more is the entry of the pixel at
    [n - 2^30], not the quantised colour of its own bytes. *)
Theorem quantize_wraps image width height :
  0 <= width < 2 ^ 32 -> 0 <= height < 2 ^ 32 ->
  Z.of_nat (length image) = 4 * (width * height) ->
  2 ^ 30 < width * height < 2 ^ 32 ->
  exists indices,
    quantize image width height = Ok indices
    /\ forall n, 2 ^ 30 <= n < width * height ->
         nth (Z.to_nat n) indices 0 = nth (Z.to_nat (n - 2 ^ 30)) indices 0.
Proof.
  intros Hw Hh Himage Hfit.
  destruct (quantize_stored image width height Hw Hh Himage ltac:(lia))
    as (indices & Hrun & Hlen & Hval).
  exists indices. split; [exact Hrun |].
  intros n Hn. rewrite !Hval by lia. unfold stored_index.
  assert (Hu : u32 (4 * n) = u32 (4 * (n - 2 ^ 30))) by (unfold u32; dlia).
  rewrite Hu. reflexivity.
Qed.

Lemma quantize_wraps_witness :
  exists indices,
    quantize (replicate (Z.to_nat 4294967328) 0) 1073741832 1 = Ok indices
    /\ forall n, 2 ^ 30 <= n < 1073741832 * 1 ->
         nth (Z.to_nat n) indices 0 = nth (Z.to_nat (n - 2 ^ 30)) indices 0.
Proof.
  apply (quantize_wraps (replicate (Z.to_nat 4294967328) 0) 1073741832 1);
    [lia | lia | rewrite length_replicate; lia | lia].
Defined.

(** ** Whole runs *)

(** What a run that passes every check and opens its file leaves. *)
Lemma main_run_ok e indices planar :
  3 <= argc e -> load_file_error e = 0 -> decode_error e = 0 ->
  width e mod 8 = 0 ->
  quantize (image e) (width e) (height e) = Ok indices ->
  convert_to_planar (malloc_ok e) indices (width e) (height e) = Ok planar ->
  fopen_ok e = true ->
  main e = Ok {| file_bytes :=
                   take (Z.to_nat (Z.min (fwrite_accepts e)
                                     (usize (u32 (width e * height e) / 8 * 4))))
                        planar;
                 reported_size := usize (u32 (width e * height e) / 8 * 4) |}.
Proof.
  intros Hargc Hload Hdecode Hmul8 Hq Hp Hfopen. unfold main.
  destruct (Z.ltb_spec (argc e) 3) as [? | _]; [lia |].
  rewrite Hload, Hdecode, Hmul8, Hq. cbn [Z.eqb negb mbind result_bind].
  rewrite Hp. cbn [mbind result_bind]. rewrite Hfopen. reflexivity.
Qed.

(** X8.  End to end: for an image of at most 2^30 pixels whose width is a
    multiple of 8, in a run in which [malloc], [fopen] and the write
    succeed, unpacking the output file gives, for every pixel, the palette
    index that [map_to_ega] returns for the red, green and blue byte of
    that pixel. *)
Theorem main_end_to_end e :
  3 <= argc e -> load_file_error e = 0 -> decode_error e = 0 ->
  0 <= width e < 2 ^ 32 -> 0 <= height e < 2 ^ 32 ->
  width e mod 8 = 0 ->
  Z.of_nat (length (image e)) = 4 * (width e * height e) ->
  width e * height e <= 2 ^ 30 ->
  malloc_ok e = true -> fopen_ok e = true ->
  4 * (width e * height e / 8) <= fwrite_accepts e ->
  exists w,
    main e = Ok w
    /\ forall x y, 0 <= x < width e -> 0 <= y < height e ->
         unpack (file_bytes w) (width e) (height e) x y
         = map_to_ega
             (nth (Z.to_nat (4 * (y * width e + x))) (image e) 0)
             (nth (Z.to_nat (4 * (y * width e + x) + 1)) (image e) 0)
             (nth (Z.to_nat (4 * (y * width e + x) + 2)) (image e) 0).
Proof.
  intros Hargc Hload Hdecode Hw Hh Hmul8 Himage Hfit Hmalloc Hfopen Hwrite.
  assert (Hfit' : width e * height e < 2 ^ 32) by lia.
  destruct (quantize_stored (image e) (width e) (height e) Hw Hh Himage Hfit')
    as (indices & Hq & Hlen & Hval).
  assert (Hrange : Forall (fun v => 0 <= v < 16) indices).
  { apply List.Forall_nth. intros i d Hi.
    rewrite (nth_indep indices d 0 Hi).
    replace i with (Z.to_nat (Z.of_nat i)) by lia.
    rewrite Hval by lia. apply map_to_ega_range. }
  destruct (convert_to_planar_layout indices (width e) (height e)
              Hw Hh Hmul8 Hlen Hfit') as (out & Hrun & _ & Hsize).
  destruct (convert_to_planar_unpacks indices (width e) (height e)
              Hw Hh Hmul8 Hlen Hfit' Hrange) as (out' & Hrun' & Hunpack).
  rewrite Hrun in Hrun'. inversion Hrun'; subst out'. clear Hrun'.
  assert (Hps : 0 <= width e * height e / 8 < 2 ^ 29) by dlia.
  eexists. split.
  - apply (main_run_ok e indices out); try assumption.
    rewrite Hmalloc. exact Hrun.
  - cbn [file_bytes]. intros x y Hx Hy.
    rewrite (u32_small (width e * height e)), usize_small by lia.
    rewrite take_ge by lia.
    rewrite (Hunpack x y Hx Hy).
    assert (Hn : 0 <= y * width e + x < width e * height e) by nia.
    rewrite Hval by lia. unfold stored_index.
    rewrite u32_small by lia. reflexivity.
Qed.

Lemma main_end_to_end_witness :
  exists w,
    main (stripes_run 4) = Ok w
    /\ forall x y, 0 <= x < 8 -> 0 <= y < 1 ->
         unpack (file_bytes w) 8 1 x y
         = map_to_ega (nth (Z.to_nat (4 * (y * 8 + x))) stripes 0)
                      (nth (Z.to_nat (4 * (y * 8 + x) + 1)) stripes 0)
                      (nth (Z.to_nat (4 * (y * 8 + x) + 2)) stripes 0).
Proof.
  apply (main_end_to_end (stripes_run 4));
    unfold stripes_run; cbn [argc load_file_error decode_error image width
      height malloc_ok fopen_ok fwrite_accepts]; try reflexivity; lia.
Defined.

(** X9.  For a decoded buffer of [4 * width * height] bytes with fewer
    than 2^32 pixels no run of [main] leaves a buffer, whatever the
    arguments, the error codes, the width, and the outcomes of [malloc],
    [fopen] and the write are. *)
Theorem main_defined e :
  0 <= width e < 2 ^ 32 -> 0 <= height e < 2 ^ 32 ->
  Z.of_nat (length (image e)) = 4 * (width e * height e) ->
  width e * height e < 2 ^ 32 ->
  main e <> Undefined.
Proof.
  intros Hw Hh Himage Hfit. unfold main.
  destruct (argc e <? 3); [discriminate |].
  destruct (negb (load_file_error e =? 0)); [discriminate |].
  destruct (negb (decode_error e =? 0)); [discriminate |].
  destruct (Z.eqb_spec (width e mod 8) 0) as [Hmul8 | _]; cbn [negb];
    [| discriminate].
  destruct (quantize_ok (image e) (width e) (height e) Hw Hh Himage Hfit)
    as (indices & Hq & Hlen & _).
  rewrite Hq. cbn [mbind result_bind].
  destruct (malloc_ok e) eqn:Hmalloc.
  - destruct (convert_to_planar_layout indices (width e) (height e)
                Hw Hh Hmul8 Hlen Hfit) as (out & Hrun & _).
    rewrite Hrun. cbn [mbind result_bind].
    destruct (negb (fopen_ok e)); discriminate.
  - unfold convert_to_planar. cbn [negb mbind result_bind]. discriminate.
Qed.

Lemma main_defined_witness : main (stripes_run 2) <> Undefined.
Proof.
  apply (main_defined (stripes_run 2));
    unfold stripes_run; cbn [image width height]; try reflexivity; lia.
Defined.

(** ** Every image of 2^32 pixels or more *)

Lemma quantize_pixel_length image width y x indices indices' :
  quantize_pixel image width y x indices = Ok indices' ->
  length indices' = length indices.
Proof.
  unfold quantize_pixel.
  repeat match goal with
    | |- context [vec_get ?v ?i] =>
        destruct (vec_get v i); cbn [mbind result_bind]; try discriminate
    end.
  unfold vec_set. destruct (indices !! _); [| discriminate].
  intros H. inversion H. apply length_insert.
Qed.

(** The pixel at the linear position [u32 (width * height)], which is the
    length of the index buffer, is stored outside it. *)
Lemma quantize_overflow image width height :
  0 <= width < 2 ^ 32 -> 0 <= height < 2 ^ 32 ->
  2 ^ 32 <= width * height ->
  quantize image width height = Undefined.
Proof.
  intros Hw Hh Hbig.
  destruct (quantize image width height) as [ind | c d |] eqn:Hq;
    [exfalso | exfalso; exact (quantize_no_exit _ _ _ _ _ Hq) | reflexivity].
  unfold quantize in Hq.
  pose proof (Z.mod_pos_bound (width * height) (2 ^ 32) ltac:(lia)) as Hs.
  fold (u32 (width * height)) in Hs.
  set (len := u32 (width * height)) in *.
  set (P := fun t : list Z => Z.of_nat (length t) = len).
  assert (Hpix : forall y x t t',
             P t -> quantize_pixel image width y x t = Ok t' -> P t').
  { intros y x t t' Ht Hb. unfold P in *.
    rewrite (quantize_pixel_length _ _ _ _ _ _ Hb). exact Ht. }
  assert (Hrow : forall y t t',
             P t ->
             for_loopM (Z.to_nat width) 0
               (fun x ind => quantize_pixel image width y x ind) t = Ok t' ->
             P t').
  { intros y t t' Ht Hb.
    apply (for_loopM_Ok_turn P _ _ (Hpix y) 0 t t' Ht Hb). }
  assert (Hinit : P (replicate (Z.to_nat len) 0)).
  { unfold P. rewrite length_replicate. lia. }
  destruct (for_loopM_Ok_turn P _ _ Hrow 0 _ ind Hinit Hq) as [_ Hturns].
  assert (Hwpos : 0 < width) by nia.
  destruct (Hturns (len / width)) as (t & t' & Ht & Hb).
  { split; [apply Z.div_pos; lia |].
    assert (len / width < height); [| lia].
    apply Z.div_lt_upper_bound; nia. }
  destruct (for_loopM_Ok_turn P _ _ (Hpix (len / width)) 0 t t' Ht Hb)
    as [_ Hturns'].
  destruct (Hturns' (len mod width)) as (u & u' & Hu & Hb').
  { pose proof (Z.mod_pos_bound len width Hwpos). lia. }
  unfold quantize_pixel in Hb'.
  assert (Hpos : u32 (u32 (len / width * width) + len mod width) = len).
  { pose proof (Z.div_mod len width ltac:(lia)) as Hdm.
    pose proof (Z.mod_pos_bound len width Hwpos) as Hm.
    assert (Hq0 : 0 <= len / width) by (apply Z.div_pos; lia).
    assert (H0 : 0 <= len / width * width) by (apply Z.mul_nonneg_nonneg; lia).
    assert (Heq : len / width * width + len mod width = len)
      by (rewrite Z.mul_comm; lia).
    rewrite (u32_small (len / width * width)) by lia.
    rewrite u32_small by lia. exact Heq. }
  rewrite Hpos in Hb'.
  repeat match type of Hb' with
    | context [vec_get ?v ?i] =>
        destruct (vec_get v i); cbn [mbind result_bind] in Hb'; try discriminate
    end.
  unfold vec_set in Hb'. unfold P in Hu.
  destruct (u !! Z.to_nat len) eqn:Hl; [| discriminate].
  apply lookup_lt_Some in Hl. lia.
Qed.

(** X10.  For every decoded image of 2^32 pixels or more whose width is
    a multiple of 8, the run of [main] writes an index outside the index
    buffer, which was sized with the 32-bit product [width * height]:
    together with X9, 2^32 pixels is the exact limit. *)
Theorem main_undefined_from_2_32 e :
  3 <= argc e -> load_file_error e = 0 -> decode_error e = 0 ->
  0 <= width e < 2 ^ 32 -> 0 <= height e < 2 ^ 32 ->
  width e mod 8 = 0 ->
  2 ^ 32 <= width e * height e ->
  main e = Undefined.
Proof.
  intros Hargc Hload Hdecode Hw Hh Hmul8 Hbig. unfold main.
  destruct (Z.ltb_spec (argc e) 3) as [? | _]; [lia |].
  rewrite Hload, Hdecode, Hmul8. cbn [Z.eqb negb].
  rewrite (quantize_overflow _ _ _ Hw Hh Hbig). reflexivity.
Qed.

Lemma main_undefined_from_2_32_witness : main huge_run = Undefined.
Proof.
  apply main_undefined_from_2_32;
    unfold huge_run; cbn [argc load_file_error decode_error width height];
    try reflexivity; lia.
Defined.

(** ** Failures that are looked for, and the one that is not *)

(** X11.  Each failure that the program looks for (too few arguments, a
    load error, a decode error, a width that is not a multiple of 8, a
    failed [malloc], a failed [fopen]), taken in the order of the steps,
    ends the run with status 1 and exactly the diagnostic of that failure,
    before the output file is opened. *)
Theorem main_reports_failure e d :
  detected_failure e d -> main e = Exit 1 [d].
Proof. exact (main_detected_failure e d). Qed.

Lemma main_reports_failure_witness :
  main {| argc := 3; load_file_error := 0; decode_error := 0;
          image := stripes; width := 8; height := 1;
          malloc_ok := true; fopen_ok := false; fwrite_accepts := 4 |}
  = Exit 1 [DOpenFailed].
Proof.
  apply main_reports_failure.
  eapply open_failure;
    cbn [argc load_file_error decode_error image width height malloc_ok
         fopen_ok]; try reflexivity; lia.
Defined.



(** X13.  A failure of the output stream is not among the failures looked
    for: when the stream takes fewer bytes than the planes have, the run
    still ends with [return 0] and no diagnostic, the closing message
    reports the full size, and the file holds only the bytes the stream
    took. *)
Theorem main_write_failure_unreported e :
  3 <= argc e -> load_file_error e = 0 -> decode_error e = 0 ->
  0 <= width e < 2 ^ 32 -> 0 <= height e < 2 ^ 32 ->
  width e mod 8 = 0 ->
  Z.of_nat (length (image e)) = 4 * (width e * height e) ->
  width e * height e < 2 ^ 32 ->
  malloc_ok e = true -> fopen_ok e = true ->
  0 <= fwrite_accepts e < 4 * (width e * height e / 8) ->
  exists w,
    main e = Ok w
    /\ Z.of_nat (length (file_bytes w)) = fwrite_accepts e
    /\ reported_size w = 4 * (width e * height e / 8).
Proof. exact (main_short_write e). Qed.

Lemma main_write_failure_unreported_witness :
  exists w,
    main (stripes_run 3) = Ok w
    /\ Z.of_nat (length (file_bytes w)) = 3
    /\ reported_size w = 4.
Proof.
  apply (main_write_failure_unreported (stripes_run 3));
    unfold stripes_run; cbn [argc load_file_error decode_error image width
      height malloc_ok fopen_ok fwrite_accepts]; try reflexivity; dlia.
Defined.

(** ** More on the packer *)

(** The four low bits of any integer add up to the value masked with
    [0x0F]. *)
Lemma low_nibble_bits v :
  Z.b2z (Z.testbit v 0) + 2 * Z.b2z (Z.testbit v 1)
  + 4 * Z.b2z (Z.testbit v 2) + 8 * Z.b2z (Z.testbit v 3) = Z.land v 0x0F.
Proof.
  change 0x0F with (Z.ones 4). rewrite Z.land_ones by lia.
  rewrite <- (nibble_bits (v mod 2 ^ 4)) by (apply Z.mod_pos_bound; lia).
  rewrite !Z.mod_pow2_bits_low by lia. reflexivity.
Qed.

(** X14.  Whatever values the index buffer holds, unpacking the planes
    gives every value masked with [0x0F]: the round trip loses the bits
    above the low four and nothing else. *)
Theorem convert_to_planar_round_trip_masked (indices : list Z) width height :
  0 <= width < 2 ^ 32 -> 0 <= height < 2 ^ 32 ->
  width mod 8 = 0 ->
  Z.of_nat (length indices) = width * height ->
  width * height < 2 ^ 32 ->
  exists out,
    convert_to_planar true indices width height = Ok out
    /\ forall x y, 0 <= x < width -> 0 <= y < height ->
         unpack out width height x y
         = Z.land (nth (Z.to_nat (y * width + x)) indices 0) 0x0F.
Proof.
  intros Hw Hh Hmul8 Hlen Hfit.
  destruct (convert_to_planar_packed indices width height Hw Hh Hmul8 Hlen Hfit)
    as (out & Hrun & Hpacked).
  exists out. split; [exact Hrun |].
  intros x y Hx Hy. unfold unpack.
  rewrite !(unpack_bit_packed indices width height Hw Hh Hmul8 Hfit
              out _ x y Hpacked) by lia.
  unfold index_bit. apply low_nibble_bits.
Qed.

Lemma convert_to_planar_round_trip_masked_witness :
  exists out,
    convert_to_planar true [16; 31; 32; 47; 200; 255; 0; 15] 8 1 = Ok out
    /\ forall x y, 0 <= x < 8 -> 0 <= y < 1 ->
         unpack out 8 1 x y
         = Z.land (nth (Z.to_nat (y * 8 + x)) [16; 31; 32; 47; 200; 255; 0; 15] 0)
                  0x0F.
Proof.
  apply (convert_to_planar_round_trip_masked [16; 31; 32; 47; 200; 255; 0; 15] 8 1);
    [lia | lia | reflexivity | reflexivity | reflexivity].
Defined.

(** X15.  A pixel touches one bit of one byte of each plane: when two
    index buffers differ at the pixel at linear position [n0] only, the
    packed outputs agree on every bit except bit [7 - n0 mod 8] of byte
    [n0 / 8] of each plane; in particular every other byte is the same. *)
Theorem convert_to_planar_local (indices1 indices2 : list Z) width height n0 :
  0 <= width < 2 ^ 32 -> 0 <= height < 2 ^ 32 ->
  width mod 8 = 0 ->
  Z.of_nat (length indices1) = width * height ->
  Z.of_nat (length indices2) = width * height ->
  width * height < 2 ^ 32 ->
  (forall n, 0 <= n -> n <> n0 ->
     nth (Z.to_nat n) indices1 0 = nth (Z.to_nat n) indices2 0) ->
  exists out1 out2,
    convert_to_planar true indices1 width height = Ok out1
    /\ convert_to_planar true indices2 width height = Ok out2
    /\ length out1 = length out2
    /\ (forall p b i, 0 <= p < 4 -> 0 <= b < width * height / 8 ->
          (b <> n0 / 8 \/ i <> 7 - n0 mod 8) ->
          Z.testbit (nth (Z.to_nat (p * (width * height / 8) + b)) out1 0) i
          = Z.testbit (nth (Z.to_nat (p * (width * height / 8) + b)) out2 0) i)
    /\ (forall p b, 0 <= p < 4 -> 0 <= b < width * height / 8 ->
          b <> n0 / 8 ->
          nth (Z.to_nat (p * (width * height / 8) + b)) out1 0
          = nth (Z.to_nat (p * (width * height / 8) + b)) out2 0).
Proof.
  intros Hw Hh Hmul8 Hlen1 Hlen2 Hfit Hsame.
  destruct (convert_to_planar_packed indices1 width height Hw Hh Hmul8 Hlen1 Hfit)
    as (out1 & Hrun1 & Hp1).
  destruct (convert_to_planar_packed indices2 width height Hw Hh Hmul8 Hlen2 Hfit)
    as (out2 & Hrun2 & Hp2).
  exists out1, out2. split; [exact Hrun1 |]. split; [exact Hrun2 |].
  assert (Hbit : forall p b i, 0 <= p < 4 -> 0 <= b < width * height / 8 ->
            (b <> n0 / 8 \/ i <> 7 - n0 mod 8) ->
            Z.testbit (nth (Z.to_nat (p * (width * height / 8) + b)) out1 0) i
            = Z.testbit (nth (Z.to_nat (p * (width * height / 8) + b)) out2 0) i).
  { intros p b i Hp Hb Hne.
    rewrite (packed_byte indices1 width height Hmul8 out1 p b Hp1 Hp Hb).
    rewrite (packed_byte indices2 width height Hmul8 out2 p b Hp2 Hp Hb).
    rewrite !testbit_plane_byte.
    destruct (Z.leb_spec 0 i) as [Hi0 | Hi0]; [| reflexivity].
    destruct (Z.ltb_spec i 8) as [Hi8 | Hi8]; [| reflexivity].
    cbn [andb]. unfold index_bit. rewrite Hsame; [reflexivity | lia | dlia]. }
  split; [| split; [exact Hbit |]].
  - destruct Hp1 as [Hl1 _], Hp2 as [Hl2 _]. lia.
  - intros p b Hp Hb Hne. apply Z.bits_inj'. intros i _.
    apply Hbit; auto.
Qed.

Lemma convert_to_planar_local_witness :
  exists out1 out2,
    convert_to_planar true (replicate 11 0 ++ [15] ++ replicate 4 0) 8 2 = Ok out1
    /\ convert_to_planar true (replicate 16 0) 8 2 = Ok out2
    /\ length out1 = length out2
    /\ (forall p b i, 0 <= p < 4 -> 0 <= b < 8 * 2 / 8 ->
          (b <> 11 / 8 \/ i <> 7 - 11 mod 8) ->
          Z.testbit (nth (Z.to_nat (p * (8 * 2 / 8) + b)) out1 0) i
          = Z.testbit (nth (Z.to_nat (p * (8 * 2 / 8) + b)) out2 0) i)
    /\ (forall p b, 0 <= p < 4 -> 0 <= b < 8 * 2 / 8 ->
          b <> 11 / 8 ->
          nth (Z.to_nat (p * (8 * 2 / 8) + b)) out1 0
          = nth (Z.to_nat (p * (8 * 2 / 8) + b)) out2 0).
Proof.
  apply (convert_to_planar_local (replicate 11 0 ++ [15] ++ replicate 4 0)
           (replicate 16 0) 8 2 11);
    [lia | lia | reflexivity | reflexivity | reflexivity | reflexivity |].
  intros n Hn Hne.
  assert (Hk : Z.to_nat n <> 11%nat) by lia.
  destruct (Z.to_nat n) as [|k]; [reflexivity |].
  do 10 (destruct k as [|k]; [reflexivity |]).
  destruct k as [|k]; [contradiction |].
  do 4 (destruct k as [|k]; [reflexivity |]).
  destruct k; reflexivity.
Defined.

(** X16.  Each plane is [height] rows of [width / 8] bytes: the bit of
    plane [p] for the pixel in column [x] of row [y] is bit [7 - x mod 8]
    of byte [y * (width / 8) + x / 8] of that plane, and a plane has
    [(width / 8) * height] bytes. *)
Theorem convert_to_planar_rows (indices : list Z) width height :
  0 <= width < 2 ^ 32 -> 0 <= height < 2 ^ 32 ->
  width mod 8 = 0 ->
  Z.of_nat (length indices) = width * height ->
  width * height < 2 ^ 32 ->
  exists out,
    convert_to_planar true indices width height = Ok out
    /\ Z.of_nat (length out) = 4 * (width / 8 * height)
    /\ forall p x y, 0 <= p < 4 -> 0 <= x < width -> 0 <= y < height ->
         Z.testbit
           (nth (Z.to_nat (p * (width / 8 * height) + y * (width / 8) + x / 8))
                out 0)
           (7 - x mod 8)
         = Z.testbit (nth (Z.to_nat (y * width + x)) indices 0) p.
Proof.
  intros Hw Hh Hmul8 Hlen Hfit.
  destruct (convert_to_planar_packed indices width height Hw Hh Hmul8 Hlen Hfit)
    as (out & Hrun & Hpacked).
  assert (Hw8 : width = 8 * (width / 8)) by dlia.
  assert (Hps : width * height / 8 = width / 8 * height).
  { rewrite Hw8 at 1.
    replace (8 * (width / 8) * height) with (width / 8 * height * 8) by ring.
    apply Z.div_mul. lia. }
  exists out. split; [exact Hrun |]. split.
  - destruct Hpacked as [Hout _]. rewrite <- Hps. exact Hout.
  - intros p x y Hp Hx Hy.
    pose proof (unpack_bit_packed indices width height Hw Hh Hmul8 Hfit
                  out p x y Hpacked Hp Hx Hy) as Hbit.
    unfold unpack_bit, index_bit in Hbit. rewrite <- Hbit, Hps.
    assert (Hoff : (y * width + x) / 8 = y * (width / 8) + x / 8).
    { rewrite Hw8 at 1.
      replace (y * (8 * (width / 8)) + x) with (y * (width / 8) * 8 + x) by ring.
      rewrite Z.div_add_l by lia. reflexivity. }
    rewrite Hoff. f_equal. f_equal. f_equal. lia.
Qed.

Lemma convert_to_planar_rows_witness :
  exists out,
    convert_to_planar true (seqZ 0 16 ++ seqZ 0 16) 16 2 = Ok out
    /\ Z.of_nat (length out) = 4 * (16 / 8 * 2)
    /\ forall p x y, 0 <= p < 4 -> 0 <= x < 16 -> 0 <= y < 2 ->
         Z.testbit
           (nth (Z.to_nat (p * (16 / 8 * 2) + y * (16 / 8) + x / 8)) out 0)
           (7 - x mod 8)
         = Z.testbit (nth (Z.to_nat (y * 16 + x)) (seqZ 0 16 ++ seqZ 0 16) 0) p.
Proof.
  apply (convert_to_planar_rows (seqZ 0 16 ++ seqZ 0 16) 16 2);
    [lia | lia | reflexivity | reflexivity | reflexivity].
Defined.

(** ** The packer without the check of the width *)

Lemma pack_plane_length pixel_index bit byte_offset plane_size plane out out' :
  pack_plane pixel_index bit byte_offset plane_size plane out = Ok out' ->
  length out' = length out.
Proof.
  unfold pack_plane. destruct (negb _).
  - destruct (vec_get out _); cbn [mbind result_bind]; try discriminate.
    unfold vec_set. destruct (out !! _); [| discriminate].
    intros H. inversion H. apply length_insert.
  - intros H. inversion H. reflexivity.
Qed.

Lemma pack_pixel_length indices width plane_size y x out out' :
  pack_pixel indices width plane_size y x out = Ok out' ->
  length out' = length out.
Proof.
  unfold pack_pixel.
  destruct (vec_get indices _) as [z | |]; cbn [mbind result_bind];
    try discriminate.
  intros Hrun.
  assert (Hkeep : forall (j : Z) (t t' : list Z),
             length t = length out ->
             pack_plane (Z.land z 0x0F) (u32 (7 - Z.land x 7))
               (u32 (u32 (y * width) + x) / 8) plane_size j t = Ok t' ->
             length t' = length out).
  { intros j t t' Ht Hb. rewrite (pack_plane_length _ _ _ _ _ _ _ Hb). exact Ht. }
  apply (for_loopM_Ok_turn (fun t => length t = length out) _ 4 Hkeep
           0 out out' eq_refl Hrun).
Qed.

(** X17.  The check of the width in [main] is what keeps the packer
    inside its buffer: called with a pixel count that is not a multiple of
    8 (so with a width that is not), the packer has a plane buffer of
    [4 * (width * height / 8)] bytes, and for a last pixel whose index has
    bit 3 set it writes byte [width * height / 8] of plane 3, the first
    byte after the buffer. *)
Theorem convert_to_planar_unaligned (indices : list Z) width height :
  0 <= width < 2 ^ 32 -> 0 <= height < 2 ^ 32 ->
  width * height < 2 ^ 32 ->
  (width * height) mod 8 <> 0 ->
  Z.testbit (nth (Z.to_nat (width * height - 1)) indices 0) 3 = true ->
  convert_to_planar true indices width height = Undefined.
Proof.
  intros Hw Hh Hfit Hmod Hbit.
  destruct (convert_to_planar true indices width height) as [out | c d |] eqn:Hrun;
    [exfalso | exfalso | reflexivity].
  2: { destruct (convert_to_planar_exit _ _ _ _ _ _ Hrun) as (Hm & _).
       discriminate. }
  unfold convert_to_planar in Hrun. cbn [negb] in Hrun.
  assert (Hnz : width * height <> 0) by (intros H0; rewrite H0 in Hmod; auto).
  assert (Hwpos : 0 < width) by nia.
  assert (Hhpos : 0 < height) by nia.
  rewrite (u32_small (width * height)) in Hrun by lia.
  set (ps := width * height / 8) in *.
  assert (Hps : 0 <= ps < 2 ^ 29) by (unfold ps; dlia).
  rewrite usize_small in Hrun by lia.
  set (P := fun t : list Z => Z.of_nat (length t) = 4 * ps).
  assert (Hpix : forall y x t t',
             P t -> pack_pixel indices width ps y x t = Ok t' -> P t').
  { intros y x t t' Ht Hb. unfold P in *.
    rewrite (pack_pixel_length _ _ _ _ _ _ _ Hb). exact Ht. }
  assert (Hrow : forall y t t',
             P t ->
             for_loopM (Z.to_nat width) 0
               (fun x o => pack_pixel indices width ps y x o) t = Ok t' ->
             P t').
  { intros y t t' Ht Hb.
    apply (for_loopM_Ok_turn P _ _ (Hpix y) 0 t t' Ht Hb). }
  assert (Hinit : P (replicate (Z.to_nat (ps * 4)) 0)).
  { unfold P. rewrite length_replicate. lia. }
  destruct (for_loopM_Ok_turn P _ _ Hrow 0 _ out Hinit Hrun) as [_ Hturns].
  destruct (Hturns (height - 1)) as (t & t' & Ht & Hb); [lia |].
  destruct (for_loopM_Ok_turn P _ _ (Hpix (height - 1)) 0 t t' Ht Hb)
    as [_ Hturns'].
  destruct (Hturns' (width - 1)) as (u & u' & Hu & Hb'); [lia |].
  unfold pack_pixel in Hb'.
  assert (Hpos : u32 (u32 ((height - 1) * width) + (width - 1))
                 = width * height - 1).
  { rewrite (u32_small ((height - 1) * width)) by nia.
    rewrite u32_small by nia. ring. }
  rewrite Hpos in Hb'. unfold vec_get at 1 in Hb'.
  destruct (indices !! Z.to_nat (width * height - 1)) as [v|] eqn:Hv;
    cbn [mbind result_bind] in Hb'; [| discriminate].
  rewrite (nth_lookup_Some _ _ 0 _ Hv) in Hbit.
  assert (Hkeep : forall (j : Z) (a a' : list Z),
             P a ->
             pack_plane (Z.land v 0x0F) (u32 (7 - Z.land (width - 1) 7))
               ((width * height - 1) / 8) ps j a = Ok a' ->
             P a').
  { intros j a a' Ha Hpl. unfold P in *.
    rewrite (pack_plane_length _ _ _ _ _ _ _ Hpl). exact Ha. }
  destruct (for_loopM_Ok_turn P _ 4 Hkeep 0 u u' Hu Hb') as [_ Hplanes].
  destruct (Hplanes 3) as (a & a' & Ha & Hpl); [lia |].
  unfold pack_plane in Hpl.
  rewrite (land_shiftr_1 _ 3), (testbit_land_15 _ 3), Hbit in Hpl by lia.
  cbn [Z.b2z Z.eqb negb] in Hpl.
  assert (Hoff : usize (usize (3 * ps) + (width * height - 1) / 8) = 4 * ps).
  { rewrite (usize_small (3 * ps)) by lia.
    assert ((width * height - 1) / 8 = ps) by (unfold ps; dlia).
    rewrite usize_small by lia. lia. }
  rewrite Hoff in Hpl. unfold vec_get in Hpl. unfold P in Ha.
  destruct (a !! Z.to_nat (4 * ps)) eqn:Hl; cbn [mbind result_bind] in Hpl;
    [| discriminate].
  apply lookup_lt_Some in Hl. lia.
Qed.

Lemma convert_to_planar_unaligned_witness :
  convert_to_planar true [0; 0; 0; 0; 0; 0; 0; 0; 0; 0; 0; 8] 12 1 = Undefined.
Proof.
  apply (convert_to_planar_unaligned [0; 0; 0; 0; 0; 0; 0; 0; 0; 0; 0; 8] 12 1);
    [lia | lia | reflexivity | vm_compute; discriminate | reflexivity].
Defined.

(** ** Images without pixels *)

(** X18.  For a decoded image of width 0 or height 0 (the width still a
    multiple of 8) the pixel loops and the packer touch no buffer, and a
    run in which [malloc] and [fopen] succeed leaves an empty output file
    and reports 0 bytes, whatever the decoded bytes are. *)
Theorem main_empty_image e :
  3 <= argc e -> load_file_error e = 0 -> decode_error e = 0 ->
  0 <= width e -> 0 <= height e -> width e mod 8 = 0 ->
  width e = 0 \/ height e = 0 ->
  malloc_ok e = true -> fopen_ok e = true ->
  quantize (image e) (width e) (height e) = Ok []
  /\ convert_to_planar true [] (width e) (height e) = Ok []
  /\ main e = Ok {| file_bytes := []; reported_size := 0 |}.
Proof.
  intros Hargc Hload Hdecode Hw Hh Hmul8 Hzero Hmalloc Hfopen.
  assert (Hn : width e * height e = 0) by (destruct Hzero as [-> | ->]; lia).
  assert (Hloops : forall (body : Z -> Z -> list Z -> result (list Z)),
             for_loopM (Z.to_nat (height e)) 0
               (fun y o => for_loopM (Z.to_nat (width e)) 0 (body y) o) []
             = Ok []).
  { intros body.
    destruct (for_loopM_inv (fun _ (o : list Z) => o = [])
                (fun y o => for_loopM (Z.to_nat (width e)) 0 (body y) o)
                (Z.to_nat (height e)) 0 [] eq_refl) as (o & Hrun & ->);
      [| exact Hrun].
    intros y o Hy ->. exists []. split; [| reflexivity].
    destruct Hzero as [Hw0 | Hh0]; [| lia].
    rewrite Hw0. reflexivity. }
  assert (Hq : quantize (image e) (width e) (height e) = Ok []).
  { unfold quantize. rewrite Hn. change (replicate (Z.to_nat (u32 0)) 0) with (@nil Z).
    apply (Hloops (fun y x ind => quantize_pixel (image e) (width e) y x ind)). }
  assert (Hp : convert_to_planar true [] (width e) (height e) = Ok []).
  { unfold convert_to_planar. cbn [negb]. rewrite Hn.
    change (replicate (Z.to_nat (usize (u32 0 / 8 * 4))) 0) with (@nil Z).
    apply (Hloops (fun y x o => pack_pixel [] (width e) (u32 0 / 8) y x o)). }
  split; [exact Hq |]. split; [exact Hp |].
  rewrite (main_run_ok e [] []); try assumption.
  - rewrite Hn. change (usize (u32 0 / 8 * 4)) with 0. rewrite take_nil.
    reflexivity.
  - rewrite Hmalloc. exact Hp.
Qed.

Lemma main_empty_image_witness :
  quantize [1; 2; 3; 4] 16 0 = Ok []
  /\ convert_to_planar true [] 16 0 = Ok []
  /\ main {| argc := 3; load_file_error := 0; decode_error := 0;
             image := [1; 2; 3; 4]; width := 16; height := 0;
             malloc_ok := true; fopen_ok := true; fwrite_accepts := 0 |}
     = Ok {| file_bytes := []; reported_size := 0 |}.
Proof.
  apply (main_empty_image
           {| argc := 3; load_file_error := 0; decode_error := 0;
              image := [1; 2; 3; 4]; width := 16; height := 0;
              malloc_ok := true; fopen_ok := true; fwrite_accepts := 0 |});
    cbn [argc load_file_error decode_error width height malloc_ok fopen_ok];
    try reflexivity; lia.
Defined.
